(** * ImageKit MCP server (index.js): tool handlers and request normalisation

    A shallow embedding of [index.js].  JavaScript strings are modelled as
    [string] (one [ascii] per code unit; every string primitive used by the
    source acts code unit by code unit), [undefined]/[null] as [None],
    integer-valued numbers as [Z], the module-level [client] variable and the
    calls made on the ImageKit SDK as an explicit state, and a thrown
    exception (or rejected promise) as the [Throw] outcome of a small
    state-and-exception monad. *)

From Stdlib Require Import String Ascii List ZArith Lia Bool DecimalString.
Import ListNotations.
Local Open Scope list_scope.
Local Open Scope string_scope.

(** ** JavaScript primitives used by the source *)

Module JS.

(** The line feed and the double quote, which appear in template literals. *)
Definition nl : string := String "010"%char EmptyString.
Definition dq : string := String "034"%char EmptyString.

(** Truthiness of an optional string: [undefined] and [""] are falsy. *)
Definition truthy_str (v : option string) : bool :=
  match v with
  | None => false
  | Some EmptyString => false
  | Some (String _ _) => true
  end.

(** Truthiness of an optional number: [undefined] and [0] are falsy. *)
Definition truthy_num (v : option Z) : bool :=
  match v with
  | None => false
  | Some z => negb (z =? 0)%Z
  end.

(** [a || b] on optional strings, with a string as second operand. *)
Definition or_str (a : option string) (b : string) : string :=
  match a with
  | Some (String c s) => String c s
  | _ => b
  end.

(** [a ?? b] *)
Definition nullish {A : Type} (a : option A) (b : A) : A :=
  match a with
  | Some x => x
  | None => b
  end.

(** [s.startsWith(p)] *)
Fixpoint startsWith (s p : string) : bool :=
  match p with
  | EmptyString => true
  | String c p' =>
      match s with
      | EmptyString => false
      | String d s' => if Ascii.eqb d c then startsWith s' p' else false
      end
  end.

(** [s.endsWith(p)]: some suffix of [s] is [p]. *)
Fixpoint endsWith (s p : string) : bool :=
  String.eqb s p ||
  match s with
  | EmptyString => false
  | String _ s' => endsWith s' p
  end.

(** [s.slice(0, -1)]: all but the last code unit. *)
Fixpoint slice_0_m1 (s : string) : string :=
  match s with
  | EmptyString => EmptyString
  | String _ EmptyString => EmptyString
  | String d s' => String d (slice_0_m1 s')
  end.

(** [s.split(c)] for a one-character separator [c]: the pieces between
    the occurrences of [c], in order; never the empty array. *)
Fixpoint split (s : string) (c : ascii) : list string :=
  match s with
  | EmptyString => [EmptyString]
  | String d s' =>
      if Ascii.eqb d c then EmptyString :: split s' c
      else match split s' c with
           | piece :: rest => String d piece :: rest
           | [] => [String d EmptyString]
           end
  end.

(** [a[i]]: [undefined] out of range. *)
Definition index {A : Type} (a : list A) (i : nat) : option A := nth_error a i.

(** [a.join(sep)] on an array of strings. *)
Definition join (a : list string) (sep : string) : string := String.concat sep a.

(** Template-literal rendering of an integer-valued number. *)
Definition num_toString (z : Z) : string := NilZero.string_of_int (Z.to_int z).

(** Template-literal rendering of a possibly missing string property. *)
Definition tmpl_str (v : option string) : string :=
  match v with
  | Some s => s
  | None => "undefined"
  end.

(** Template-literal rendering of a possibly missing number property. *)
Definition tmpl_num (v : option Z) : string :=
  match v with
  | Some z => num_toString z
  | None => "undefined"
  end.

(** [(x / 1024).toFixed(1)] for an integer [x] (exactly representable, so
    the quotient by a power of two is exact): let [n] be the integer for
    which [n / 10] is closest to [|x| / 1024], the larger one on a tie;
    the result is the sign, the decimal of [n / 10], a point and the
    last digit of [n]. *)
Definition tenths_of_1024 (x : Z) : Z := ((10 * x + 512) / 1024)%Z.

Definition fixed1_abs (x : Z) : string :=
  let n := tenths_of_1024 x in
  num_toString (n / 10) ++ "." ++ num_toString (n mod 10).

Definition div1024_toFixed1 (x : Z) : string :=
  if (x <? 0)%Z then "-" ++ fixed1_abs (- x) else fixed1_abs x.

(** The same on a possibly missing property: [undefined / 1024] is [NaN]. *)
Definition div1024_toFixed1_opt (v : option Z) : string :=
  match v with
  | Some x => div1024_toFixed1 x
  | None => "NaN"
  end.

End JS.

(** ** Helpers *)

(** [trimSlash(folder)] *)
Definition trimSlash (folder : option string) : string :=
  match folder with
  | None => "/"
  | Some EmptyString => "/"
  | Some f => if JS.endsWith f "/" then JS.slice_0_m1 f else f
  end.


(** A tool result: [{ content: [{ type, text }], isError }]; [isError] is
    left out ([None]) by [formatResult]. *)
Record ContentItem : Type := mkContent { type : string; text : string }.
Record ToolResult : Type := mkToolResult {
  content : list ContentItem;
  isError : option bool
}.

(** [formatResult(text)] *)
Definition formatResult (text : string) : ToolResult :=
  {| content := [ {| type := "text"; text := text |} ]; isError := None |}.

(** [formatError(message)] *)
Definition formatError (message : string) : ToolResult :=
  {| content := [ {| type := "text"; text := message |} ]; isError := Some true |}.

(** An object returned by the backend (a file or folder entry of a listing,
    the details of a file, the answer to an upload); a property the backend
    left out, or set to [null], is [None]. *)
Record FileObject : Type := mkFileObject {
  fo_type : option string;
  fo_name : option string;
  fo_fileId : option string;
  fo_folderId : option string;
  fo_folderPath : option string;
  fo_filePath : option string;
  fo_fileType : option string;
  fo_size : option Z;
  fo_width : option Z;
  fo_height : option Z;
  fo_tags : option (list string);
  fo_url : option string;
  fo_createdAt : option string;
  fo_updatedAt : option string
}.

(** The three pieces [formatFileInfo] computes before its template. *)
Definition fileInfo_size (file : FileObject) : string :=
  if JS.truthy_num (fo_size file)
  then JS.div1024_toFixed1_opt (fo_size file) ++ " KB"
  else "N/A".

Definition fileInfo_dims (file : FileObject) : string :=
  if JS.truthy_num (fo_width file) && JS.truthy_num (fo_height file)
  then JS.tmpl_num (fo_width file) ++ "x" ++ JS.tmpl_num (fo_height file)
  else "".

Definition fileInfo_tags (file : FileObject) : string :=
  match fo_tags file with
  | Some (t :: ts) => JS.nl ++ "   Tags: " ++ JS.join (t :: ts) ", "
  | _ => ""
  end.

(** [formatFileInfo(file)] *)
Definition formatFileInfo (file : FileObject) : string :=
  let size := fileInfo_size file in
  let dims := fileInfo_dims file in
  let tags := fileInfo_tags file in
  JS.tmpl_str (fo_name file) ++ " (" ++ JS.or_str (fo_fileType file) "file" ++ ", "
    ++ size ++ (if JS.truthy_str (Some dims) then ", " ++ dims else "") ++ ")"
    ++ tags ++ JS.nl ++ "   ID: " ++ JS.tmpl_str (fo_fileId file)
    ++ JS.nl ++ "   URL: " ++ JS.tmpl_str (fo_url file).

(** ** Data exchanged with the SDK *)

(** A JSON value, for the [z.any()] entries of [customMetadata] and of the
    transformation objects. *)
#[local] Unset Elimination Schemes.
Inductive json : Type :=
| JNull
| JBool (b : bool)
| JNum (z : Z)
| JStr (s : string)
| JArr (items : list json)
| JObj (props : list (string * json)).
#[local] Set Elimination Schemes.

(** A plain object used as a record of string keys. *)
Definition jsobject : Type := list (string * json).

(** The object [new ImageKit({ publicKey, privateKey, urlEndpoint })] is
    given, with the identity of the constructed client ([ck_id]: the number
    of clients constructed before it). *)
Record Client : Type := mkClient {
  ck_publicKey : option string;
  ck_privateKey : option string;
  ck_urlEndpoint : option string;
  ck_id : nat
}.

(** The options object handed to the handlers by the rest pattern
    [{ ..., ...options }], as [uploadToImageKit] reads it. *)
Record UploadOpts : Type := mkUploadOpts {
  folder : option string;
  useUniqueFileName : option bool;
  isPrivateFile : option bool;
  overwriteFile : option bool;
  tags : option (list string);
  customCoordinates : option string;
  customMetadata : option jsobject
}.

(** [uploadOptionsSchema]: the defaults zod fills in for missing keys. *)
Definition uploadOptionsSchema (raw : UploadOpts) : UploadOpts :=
  {| folder := Some (JS.nullish (folder raw) "/");
     useUniqueFileName := Some (JS.nullish (useUniqueFileName raw) true);
     isPrivateFile := Some (JS.nullish (isPrivateFile raw) false);
     overwriteFile := Some (JS.nullish (overwriteFile raw) false);
     tags := tags raw;
     customCoordinates := customCoordinates raw;
     customMetadata := customMetadata raw |}.

(** The [uploadOptions] object passed to [ik.upload]; a key that was never
    assigned is [None]. *)
Record UploadRequest : Type := mkUploadRequest {
  up_file : option string;
  up_fileName : string;
  up_folder : string;
  up_useUniqueFileName : bool;
  up_isPrivateFile : bool;
  up_overwriteFile : bool;
  up_tags : option (list string);
  up_customCoordinates : option string;
  up_customMetadata : option jsobject
}.

(** The parameter object passed to [ik.listFiles]. *)
Record ListParams : Type := mkListParams {
  lp_path : string;
  lp_limit : option Z;
  lp_skip : option Z;
  lp_sort : option string;
  lp_includeFolder : bool;
  lp_searchQuery : option string;
  lp_fileType : option string;
  lp_type : option string
}.

(** [z.enum(["path", "query"])] *)
Inductive Position : Type := PosPath | PosQuery.

(** The options object passed to [ik.url]. *)
Record UrlOptions : Type := mkUrlOptions {
  uo_transformation_position : Position;
  uo_path : option string;
  uo_src : option string;
  uo_transformation : option (list jsobject);
  uo_signed : option bool;
  uo_expire_seconds : option Z
}.

(** The calls made on the ImageKit client, in order. *)
Inductive Call : Type :=
| CallListFiles (ik : Client) (params : ListParams)
| CallGetFileDetails (ik : Client) (fileId : string)
| CallUpload (ik : Client) (uploadOptions : UploadRequest)
| CallDeleteFile (ik : Client) (fileId : string)
| CallCreateFolder (ik : Client) (folderName parentFolderPath : string)
| CallDeleteFolder (ik : Client) (folderPath : string)
| CallMoveFile (ik : Client) (sourceFilePath destinationPath : string)
| CallUrl (ik : Client) (options : UrlOptions).

(** ** State and effects *)

(** The module state: the [client] variable, how many clients have been
    constructed, and the calls made on the SDK so far. *)
Record State : Type := mkState {
  client : option Client;
  constructed : nat;
  calls : list Call
}.

(** [let client = null;] *)
Definition initial : State := {| client := None; constructed := 0; calls := [] |}.

(** Outcome of a computation: a value, or a thrown error with its message. *)
Inductive Res (A : Type) : Type :=
| Ok (a : A)
| Throw (message : string).
Arguments Ok {A} a.
Arguments Throw {A} message.

Definition M (A : Type) : Type := State -> Res A * State.

Definition ret {A : Type} (a : A) : M A := fun st => (Ok a, st).

Definition throw {A : Type} (message : string) : M A := fun st => (Throw message, st).

(** Sequencing: a throw skips the rest and keeps the state reached. *)
Definition bind {A B : Type} (m : M A) (k : A -> M B) : M B :=
  fun st =>
    match m st with
    | (Ok a, st') => k a st'
    | (Throw e, st') => (Throw e, st')
    end.

Notation "x <- m ;; k" := (bind m (fun x => k))
  (at level 61, m at next level, right associativity).

(** Lift the outcome of a pure step. *)
Definition lift {A : Type} (r : Res A) : M A := fun st => (r, st).

(** A call on the SDK: it is recorded, then answers or throws. *)
Definition sdk {A : Type} (c : Call) (answer : Res A) : M A :=
  fun st =>
    (answer, {| client := client st; constructed := constructed st;
                calls := (calls st ++ [c])%list |}).

(** What the handlers find around them: the process environment, the file
    system and the library functions of Node, and the answers of the
    ImageKit SDK (which may throw). *)
Record World : Type := mkWorld {
  IMAGEKIT_PUBLIC_KEY : option string;
  IMAGEKIT_PRIVATE_KEY : option string;
  IMAGEKIT_URL_ENDPOINT : option string;
  fs_existsSync : string -> bool;
  fs_readFileSync : string -> Res (list Byte.byte);
  toString_base64 : list Byte.byte -> string;
  path_basename : string -> string;
  ik_listFiles : Client -> ListParams -> Res (list FileObject);
  ik_getFileDetails : Client -> string -> Res FileObject;
  ik_upload : Client -> UploadRequest -> Res FileObject;
  ik_deleteFile : Client -> string -> Res unit;
  ik_createFolder : Client -> string -> string -> Res unit;
  ik_deleteFolder : Client -> string -> Res unit;
  ik_moveFile : Client -> string -> string -> Res unit;
  ik_url : Client -> UrlOptions -> Res string
}.

Section Handlers.

Variable w : World.

(** [getClient()] *)
Definition getClient : M Client := fun st =>
  match client st with
  | Some c => (Ok c, st)
  | None =>
      let publicKey := IMAGEKIT_PUBLIC_KEY w in
      let privateKey := IMAGEKIT_PRIVATE_KEY w in
      let urlEndpoint := IMAGEKIT_URL_ENDPOINT w in
      if negb (JS.truthy_str publicKey) || negb (JS.truthy_str privateKey)
         || negb (JS.truthy_str urlEndpoint)
      then (Throw "Missing credentials. Set IMAGEKIT_PUBLIC_KEY, IMAGEKIT_PRIVATE_KEY, and IMAGEKIT_URL_ENDPOINT.", st)
      else
        let c := {| ck_publicKey := publicKey; ck_privateKey := privateKey;
                    ck_urlEndpoint := urlEndpoint; ck_id := constructed st |} in
        (Ok c, {| client := Some c; constructed := S (constructed st);
                  calls := calls st |})
  end.

(** The [uploadOptions] object [uploadToImageKit] assembles. *)
Definition uploadOptions_of (fileData : option string) (fileName : string)
    (options : UploadOpts) : UploadRequest :=
  {| up_file := fileData;
     up_fileName := fileName;
     up_folder := trimSlash (folder options);
     up_useUniqueFileName := JS.nullish (useUniqueFileName options) true;
     up_isPrivateFile := JS.nullish (isPrivateFile options) false;
     up_overwriteFile := JS.nullish (overwriteFile options) false;
     up_tags := match tags options with
                | Some (t :: ts) => Some (t :: ts)
                | _ => None
                end;
     up_customCoordinates := if JS.truthy_str (customCoordinates options)
                             then customCoordinates options else None;
     up_customMetadata := customMetadata options |}.

(** [uploadToImageKit(fileData, fileName, options)] *)
Definition uploadToImageKit (fileData : option string) (fileName : string)
    (options : UploadOpts) : M ToolResult :=
  ik <- getClient ;;
  let uploadOptions := uploadOptions_of fileData fileName options in
  result <- sdk (CallUpload ik uploadOptions) (ik_upload w ik uploadOptions) ;;
  ret (formatResult
         ("File uploaded successfully." ++ JS.nl ++ JS.nl
          ++ "   Name: " ++ JS.tmpl_str (fo_name result) ++ JS.nl
          ++ "   ID: " ++ JS.tmpl_str (fo_fileId result) ++ JS.nl
          ++ "   URL: " ++ JS.tmpl_str (fo_url result) ++ JS.nl
          ++ "   Size: " ++ JS.div1024_toFixed1_opt (fo_size result) ++ " KB" ++ JS.nl
          ++ "   Path: " ++ JS.tmpl_str (fo_filePath result) ++ JS.nl
          ++ "   Type: " ++ JS.tmpl_str (fo_fileType result))).

(** *** The tools, on their validated arguments *)

(** [z.enum(["image", "non-image", "all"])] *)
Inductive FileTypeFilter : Type := FtImage | FtNonImage | FtAll.

Record ListFilesArgs : Type := mkListFilesArgs {
  lf_path : string;
  lf_searchQuery : option string;
  lf_limit : Z;
  lf_skip : Z;
  lf_fileType : FileTypeFilter;
  lf_sort : string
}.

(** [list_files] *)
Definition list_files (a : ListFilesArgs) : M ToolResult :=
  let filePath := lf_path a in
  let searchQuery := lf_searchQuery a in
  ik <- getClient ;;
  let params :=
    {| lp_path := filePath;
       lp_limit := Some (lf_limit a);
       lp_skip := Some (lf_skip a);
       lp_sort := Some (lf_sort a);
       lp_includeFolder := true;
       lp_searchQuery := if JS.truthy_str searchQuery then searchQuery else None;
       lp_fileType := match lf_fileType a with
                      | FtAll => None
                      | FtImage => Some "image"
                      | FtNonImage => Some "non-image"
                      end;
       lp_type := None |} in
  result <- sdk (CallListFiles ik params) (ik_listFiles w ik params) ;;
  let count := length result in
  if Nat.eqb count 0 then
    ret (formatResult
           ("No files found in " ++ JS.dq ++ filePath ++ JS.dq
            ++ (if JS.truthy_str searchQuery
                then " matching " ++ JS.dq ++ JS.tmpl_str searchQuery ++ JS.dq
                else "")
            ++ "."))
  else
    let lines := map formatFileInfo result in
    let header :=
      if JS.truthy_str searchQuery
      then "Found " ++ JS.num_toString (Z.of_nat count) ++ " file(s) matching "
           ++ JS.dq ++ JS.tmpl_str searchQuery ++ JS.dq ++ " in "
           ++ JS.dq ++ filePath ++ JS.dq ++ ":"
      else "Found " ++ JS.num_toString (Z.of_nat count) ++ " file(s) in "
           ++ JS.dq ++ filePath ++ JS.dq ++ ":" in
    ret (formatResult (header ++ JS.nl ++ JS.nl ++ JS.join lines (JS.nl ++ JS.nl))).

(** [item.type === "folder"] *)
Definition is_folder (item : FileObject) : bool :=
  match fo_type item with
  | Some t => String.eqb t "folder"
  | None => false
  end.

(** The line [list_folders] prints for a folder. *)
Definition folder_line (f : FileObject) : string :=
  JS.tmpl_str (fo_name f) ++ JS.nl ++ "   ID: " ++ JS.tmpl_str (fo_folderId f)
  ++ JS.nl ++ "   Path: " ++ JS.tmpl_str (fo_folderPath f).

(** [list_folders] *)
Definition list_folders (folderPath : string) : M ToolResult :=
  ik <- getClient ;;
  let params :=
    {| lp_path := folderPath; lp_limit := None; lp_skip := None; lp_sort := None;
       lp_includeFolder := true; lp_searchQuery := None; lp_fileType := None;
       lp_type := Some "folder" |} in
  result <- sdk (CallListFiles ik params) (ik_listFiles w ik params) ;;
  let folders := filter is_folder result in
  if Nat.eqb (length folders) 0 then
    ret (formatResult ("No folders found in " ++ JS.dq ++ folderPath ++ JS.dq ++ "."))
  else
    let lines := map folder_line folders in
    ret (formatResult
           ("Found " ++ JS.num_toString (Z.of_nat (length folders)) ++ " folder(s) in "
            ++ JS.dq ++ folderPath ++ JS.dq ++ ":" ++ JS.nl ++ JS.nl
            ++ JS.join lines (JS.nl ++ JS.nl))).

(** [get_file_details] *)
Definition get_file_details (fileId : string) : M ToolResult :=
  ik <- getClient ;;
  f <- sdk (CallGetFileDetails ik fileId) (ik_getFileDetails w ik fileId) ;;
  let dims :=
    if JS.truthy_num (fo_width f) && JS.truthy_num (fo_height f)
    then JS.nl ++ "   Dimensions: " ++ JS.tmpl_num (fo_width f) ++ "x"
         ++ JS.tmpl_num (fo_height f)
    else "" in
  let tags :=
    match fo_tags f with
    | Some (t :: ts) => JS.nl ++ "   Tags: " ++ JS.join (t :: ts) ", "
    | _ => ""
    end in
  ret (formatResult
         ("File details:" ++ JS.nl ++ JS.nl
          ++ "   Name: " ++ JS.tmpl_str (fo_name f) ++ JS.nl
          ++ "   ID: " ++ JS.tmpl_str (fo_fileId f) ++ JS.nl
          ++ "   Type: " ++ JS.tmpl_str (fo_fileType f) ++ JS.nl
          ++ "   Size: " ++ JS.div1024_toFixed1_opt (fo_size f) ++ " KB" ++ dims ++ JS.nl
          ++ "   URL: " ++ JS.tmpl_str (fo_url f) ++ JS.nl
          ++ "   Path: " ++ JS.tmpl_str (fo_filePath f) ++ tags ++ JS.nl
          ++ "   Created: " ++ JS.tmpl_str (fo_createdAt f) ++ JS.nl
          ++ "   Updated: " ++ JS.tmpl_str (fo_updatedAt f))).

(** [upload_file] *)
Definition upload_file (filePath : string) (fileName : option string)
    (options : UploadOpts) : M ToolResult :=
  if negb (fs_existsSync w filePath) then
    ret (formatError ("File not found: " ++ filePath))
  else
    buffer <- lift (fs_readFileSync w filePath) ;;
    let base64 := toString_base64 w buffer in
    let name := JS.or_str fileName (path_basename w filePath) in
    uploadToImageKit (Some base64) name options.

(** [upload_file_from_url] *)
Definition upload_file_from_url (url fileName : string) (options : UploadOpts)
    : M ToolResult :=
  uploadToImageKit (Some url) fileName options.

(** The payload [upload_base64_file] forwards: the data URI prefix is
    stripped if present. *)
Definition clean_base64 (base64Data : string) : option string :=
  if JS.startsWith base64Data "data:"
  then JS.index (JS.split base64Data ",") 1
  else Some base64Data.

(** [upload_base64_file] *)
Definition upload_base64_file (base64Data fileName : string) (options : UploadOpts)
    : M ToolResult :=
  let clean := clean_base64 base64Data in
  uploadToImageKit clean fileName options.

(** [delete_file] *)
Definition delete_file (fileId : string) : M ToolResult :=
  ik <- getClient ;;
  _ <- sdk (CallDeleteFile ik fileId) (ik_deleteFile w ik fileId) ;;
  ret (formatResult ("File deleted successfully. ID: " ++ fileId)).

(** [create_folder] *)
Definition create_folder (folderName parentFolderPath : string) : M ToolResult :=
  ik <- getClient ;;
  _ <- sdk (CallCreateFolder ik folderName parentFolderPath)
           (ik_createFolder w ik folderName parentFolderPath) ;;
  ret (formatResult
         ("Folder " ++ JS.dq ++ folderName ++ JS.dq ++ " created in "
          ++ JS.dq ++ parentFolderPath ++ JS.dq ++ ".")).

(** [delete_folder] *)
Definition delete_folder (folderPath : string) : M ToolResult :=
  ik <- getClient ;;
  _ <- sdk (CallDeleteFolder ik folderPath) (ik_deleteFolder w ik folderPath) ;;
  ret (formatResult ("Folder deleted: " ++ folderPath)).

(** [move_file] *)
Definition move_file (sourceFilePath destinationPath : string) : M ToolResult :=
  ik <- getClient ;;
  _ <- sdk (CallMoveFile ik sourceFilePath destinationPath)
           (ik_moveFile w ik sourceFilePath destinationPath) ;;
  ret (formatResult
         ("File moved from " ++ JS.dq ++ sourceFilePath ++ JS.dq ++ " to "
          ++ JS.dq ++ destinationPath ++ JS.dq ++ ".")).

(** The arguments of [generate_url] as the host sends them. *)
Record GenerateUrlInput : Type := mkGenerateUrlInput {
  in_path : option string;
  in_src : option string;
  in_transformation : option (list jsobject);
  in_transformationPosition : option Position;
  in_signed : option bool;
  in_expireSeconds : option Z
}.

(** The same after validation against the schema of the tool. *)
Record GenerateUrlArgs : Type := mkGenerateUrlArgs {
  gu_path : option string;
  gu_src : option string;
  gu_transformation : option (list jsobject);
  gu_transformationPosition : Position;
  gu_signed : bool;
  gu_expireSeconds : Z
}.

(** The schema of [generate_url]: its [.default(...)] values. *)
Definition generate_url_schema (i : GenerateUrlInput) : GenerateUrlArgs :=
  {| gu_path := in_path i;
     gu_src := in_src i;
     gu_transformation := in_transformation i;
     gu_transformationPosition := JS.nullish (in_transformationPosition i) PosPath;
     gu_signed := JS.nullish (in_signed i) false;
     gu_expireSeconds := JS.nullish (in_expireSeconds i) 300%Z |}.

(** The [options] object [generate_url] assembles. *)
Definition url_options_of (a : GenerateUrlArgs) : UrlOptions :=
  {| uo_transformation_position := gu_transformationPosition a;
     uo_path := if JS.truthy_str (gu_path a) then gu_path a else None;
     uo_src := if JS.truthy_str (gu_src a) then gu_src a else None;
     uo_transformation := gu_transformation a;
     uo_signed := if gu_signed a then Some true else None;
     uo_expire_seconds := if gu_signed a then Some (gu_expireSeconds a) else None |}.

(** [generate_url] *)
Definition generate_url (a : GenerateUrlArgs) : M ToolResult :=
  if negb (JS.truthy_str (gu_path a)) && negb (JS.truthy_str (gu_src a)) then
    ret (formatError "Either 'path' or 'src' is required.")
  else
    ik <- getClient ;;
    let options := url_options_of a in
    url <- sdk (CallUrl ik options) (ik_url w ik options) ;;
    ret (formatResult
           ("Generated URL:" ++ JS.nl ++ JS.nl ++ "   " ++ url
            ++ (if gu_signed a
                then JS.nl ++ JS.nl ++ "   Signed: yes, expires in "
                     ++ JS.num_toString (gu_expireSeconds a) ++ "s"
                else ""))).

(** A validated tool call, and the handler the server binds to it. *)
Inductive ToolCall : Type :=
| Tool_list_files (a : ListFilesArgs)
| Tool_list_folders (path : string)
| Tool_get_file_details (fileId : string)
| Tool_upload_file (filePath : string) (fileName : option string) (options : UploadOpts)
| Tool_upload_file_from_url (url fileName : string) (options : UploadOpts)
| Tool_upload_base64_file (base64Data fileName : string) (options : UploadOpts)
| Tool_delete_file (fileId : string)
| Tool_create_folder (folderName parentFolderPath : string)
| Tool_delete_folder (folderPath : string)
| Tool_move_file (sourceFilePath destinationPath : string)
| Tool_generate_url (a : GenerateUrlArgs).

Definition handle (t : ToolCall) : M ToolResult :=
  match t with
  | Tool_list_files a => list_files a
  | Tool_list_folders p => list_folders p
  | Tool_get_file_details i => get_file_details i
  | Tool_upload_file p n o => upload_file p n o
  | Tool_upload_file_from_url u n o => upload_file_from_url u n o
  | Tool_upload_base64_file d n o => upload_base64_file d n o
  | Tool_delete_file i => delete_file i
  | Tool_create_folder n p => create_folder n p
  | Tool_delete_folder p => delete_folder p
  | Tool_move_file s d => move_file s d
  | Tool_generate_url a => generate_url a
  end.

End Handlers.

(** ** Specification-side notions *)

(** The remainder of [s] after its first occurrence of [c], if there is one. *)
Fixpoint after_first (s : string) (c : ascii) : option string :=
  match s with
  | EmptyString => None
  | String d s' => if Ascii.eqb d c then Some s' else after_first s' c
  end.

(** The part of [s] before its first occurrence of [c] (all of [s] if there
    is none). *)
Fixpoint before_first (s : string) (c : ascii) : string :=
  match s with
  | EmptyString => EmptyString
  | String d s' => if Ascii.eqb d c then EmptyString else String d (before_first s' c)
  end.

(** The payload the specification asks [upload_base64_file] to forward:
    the remainder after the first comma when the data starts with
    ["data:"], the data itself otherwise. *)
Definition stripped_payload (base64Data : string) : option string :=
  if JS.startsWith base64Data "data:"
  then after_first base64Data ","
  else Some base64Data.

(** [getClient] can answer: a client is cached, or the three credentials
    are set and non-empty. *)
Definition credentials_set (w : World) : bool :=
  JS.truthy_str (IMAGEKIT_PUBLIC_KEY w) && JS.truthy_str (IMAGEKIT_PRIVATE_KEY w)
  && JS.truthy_str (IMAGEKIT_URL_ENDPOINT w).

Definition client_ready (w : World) (st : State) : bool :=
  match client st with
  | Some _ => true
  | None => credentials_set w
  end.

(** A property of the backend object that is present and not zero. *)
Definition present_nonzero (v : option Z) : Prop :=
  exists z, v = Some z /\ z <> 0%Z.

(** The state holds at most one client, the first ever constructed, built
    from three non-empty credentials. *)
Definition singleton_ok (st : State) : Prop :=
  match client st with
  | None => constructed st = 0
  | Some c =>
      constructed st = 1 /\ ck_id c = 0
      /\ JS.truthy_str (ck_publicKey c) = true
      /\ JS.truthy_str (ck_privateKey c) = true
      /\ JS.truthy_str (ck_urlEndpoint c) = true
  end.

(** [later st st']: [st'] is reached from [st] by tool calls and calls of
    [getClient], each in an environment of its own. *)
Inductive later : State -> State -> Prop :=
| later_here (st : State) : later st st
| later_tool (st st' : State) (w : World) (t : ToolCall) :
    later st st' -> later st (snd (handle w t st'))
| later_getClient (st st' : State) (w : World) :
    later st st' -> later st (snd (getClient w st')).

(** The three upload tools, and a call of one with given options. *)
Inductive UploadSource : Type :=
| FromFile (filePath : string) (fileName : option string)
| FromUrl (url fileName : string)
| FromBase64 (base64Data fileName : string).

Definition upload_call (s : UploadSource) (options : UploadOpts) : ToolCall :=
  match s with
  | FromFile p n => Tool_upload_file p n options
  | FromUrl u n => Tool_upload_file_from_url u n options
  | FromBase64 d n => Tool_upload_base64_file d n options
  end.

Definition with_tags (o : UploadOpts) (v : option (list string)) : UploadOpts :=
  {| folder := folder o; useUniqueFileName := useUniqueFileName o;
     isPrivateFile := isPrivateFile o; overwriteFile := overwriteFile o;
     tags := v; customCoordinates := customCoordinates o;
     customMetadata := customMetadata o |}.

Definition with_customCoordinates (o : UploadOpts) (v : option string) : UploadOpts :=
  {| folder := folder o; useUniqueFileName := useUniqueFileName o;
     isPrivateFile := isPrivateFile o; overwriteFile := overwriteFile o;
     tags := tags o; customCoordinates := v;
     customMetadata := customMetadata o |}.

(** A sample environment: credentials set, one file on disk, a backend that
    echoes what it is given. *)
Definition sample_object : FileObject :=
  {| fo_type := Some "file"; fo_name := Some "cat.png"; fo_fileId := Some "f1";
     fo_folderId := None; fo_folderPath := None; fo_filePath := Some "/photos/cat.png";
     fo_fileType := Some "image"; fo_size := Some 2048%Z; fo_width := Some 10%Z;
     fo_height := Some 20%Z; fo_tags := Some ["pet"; "cat"];
     fo_url := Some "https://ik.example/cat.png";
     fo_createdAt := Some "2026-01-01"; fo_updatedAt := Some "2026-01-02" |}.

Definition sample_folder : FileObject :=
  {| fo_type := Some "folder"; fo_name := Some "2026"; fo_fileId := None;
     fo_folderId := Some "d1"; fo_folderPath := Some "/photos/2026";
     fo_filePath := None; fo_fileType := None; fo_size := None; fo_width := None;
     fo_height := None; fo_tags := None; fo_url := None;
     fo_createdAt := None; fo_updatedAt := None |}.

Definition sample_world : World :=
  {| IMAGEKIT_PUBLIC_KEY := Some "public_xxx";
     IMAGEKIT_PRIVATE_KEY := Some "private_xxx";
     IMAGEKIT_URL_ENDPOINT := Some "https://ik.imagekit.io/your_id";
     fs_existsSync := fun p => String.eqb p "/tmp/cat.png";
     fs_readFileSync := fun p =>
       if String.eqb p "/tmp/cat.png" then Ok [Byte.x68; Byte.x69]
       else Throw "ENOENT: no such file or directory";
     toString_base64 := fun _ => "aGk=";
     path_basename := fun _ => "cat.png";
     ik_listFiles := fun _ _ => Ok [sample_object; sample_folder];
     ik_getFileDetails := fun _ _ => Ok sample_object;
     ik_upload := fun _ _ => Ok sample_object;
     ik_deleteFile := fun _ _ => Ok tt;
     ik_createFolder := fun _ _ _ => Ok tt;
     ik_deleteFolder := fun _ _ => Ok tt;
     ik_moveFile := fun _ _ _ => Ok tt;
     ik_url := fun _ _ => Ok "https://ik.imagekit.io/your_id/cat.png" |}.

(** The same process with no credential in its environment. *)
Definition bare_world : World :=
  {| IMAGEKIT_PUBLIC_KEY := None;
     IMAGEKIT_PRIVATE_KEY := sample_world.(IMAGEKIT_PRIVATE_KEY);
     IMAGEKIT_URL_ENDPOINT := Some "";
     fs_existsSync := sample_world.(fs_existsSync);
     fs_readFileSync := sample_world.(fs_readFileSync);
     toString_base64 := sample_world.(toString_base64);
     path_basename := sample_world.(path_basename);
     ik_listFiles := sample_world.(ik_listFiles);
     ik_getFileDetails := sample_world.(ik_getFileDetails);
     ik_upload := sample_world.(ik_upload);
     ik_deleteFile := sample_world.(ik_deleteFile);
     ik_createFolder := sample_world.(ik_createFolder);
     ik_deleteFolder := sample_world.(ik_deleteFolder);
     ik_moveFile := sample_world.(ik_moveFile);
     ik_url := sample_world.(ik_url) |}.

Definition sample_client : Client :=
  {| ck_publicKey := Some "public_xxx"; ck_privateKey := Some "private_xxx";
     ck_urlEndpoint := Some "https://ik.imagekit.io/your_id"; ck_id := 0 |}.

Definition default_options : UploadOpts :=
  uploadOptionsSchema
    {| folder := None; useUniqueFileName := None; isPrivateFile := None;
       overwriteFile := None; tags := None; customCoordinates := None;
       customMetadata := None |}.

(** The client a recorded call was made on. *)
Definition call_client (k : Call) : Client :=
  match k with
  | CallListFiles ik _ => ik
  | CallGetFileDetails ik _ => ik
  | CallUpload ik _ => ik
  | CallDeleteFile ik _ => ik
  | CallCreateFolder ik _ _ => ik
  | CallDeleteFolder ik _ => ik
  | CallMoveFile ik _ _ => ik
  | CallUrl ik _ => ik
  end.

(** The message the SDK throws on a call, if it throws on it. *)
Definition thrown {A : Type} (r : Res A) : option string :=
  match r with
  | Ok _ => None
  | Throw e => Some e
  end.

Definition call_error (w : World) (k : Call) : option string :=
  match k with
  | CallListFiles ik params => thrown (ik_listFiles w ik params)
  | CallGetFileDetails ik fileId => thrown (ik_getFileDetails w ik fileId)
  | CallUpload ik uploadOptions => thrown (ik_upload w ik uploadOptions)
  | CallDeleteFile ik fileId => thrown (ik_deleteFile w ik fileId)
  | CallCreateFolder ik n p => thrown (ik_createFolder w ik n p)
  | CallDeleteFolder ik p => thrown (ik_deleteFolder w ik p)
  | CallMoveFile ik a b => thrown (ik_moveFile w ik a b)
  | CallUrl ik options => thrown (ik_url w ik options)
  end.

(** The message of the error [getClient] throws. *)
Definition missing_credentials : string :=
  "Missing credentials. Set IMAGEKIT_PUBLIC_KEY, IMAGEKIT_PRIVATE_KEY, and IMAGEKIT_URL_ENDPOINT.".

(** A backend whose every call is refused with one message. *)
Definition failing_world (e : string) : World :=
  {| IMAGEKIT_PUBLIC_KEY := sample_world.(IMAGEKIT_PUBLIC_KEY);
     IMAGEKIT_PRIVATE_KEY := sample_world.(IMAGEKIT_PRIVATE_KEY);
     IMAGEKIT_URL_ENDPOINT := sample_world.(IMAGEKIT_URL_ENDPOINT);
     fs_existsSync := fun _ => true;
     fs_readFileSync := fun _ => Throw "EISDIR: illegal operation on a directory, read";
     toString_base64 := sample_world.(toString_base64);
     path_basename := sample_world.(path_basename);
     ik_listFiles := fun _ _ => Throw e;
     ik_getFileDetails := fun _ _ => Throw e;
     ik_upload := fun _ _ => Throw e;
     ik_deleteFile := fun _ _ => Throw e;
     ik_createFolder := fun _ _ _ => Throw e;
     ik_deleteFolder := fun _ _ => Throw e;
     ik_moveFile := fun _ _ _ => Throw e;
     ik_url := fun _ _ => Throw e |}.

(** A backend that lists nothing. *)
Definition empty_world : World :=
  {| IMAGEKIT_PUBLIC_KEY := sample_world.(IMAGEKIT_PUBLIC_KEY);
     IMAGEKIT_PRIVATE_KEY := sample_world.(IMAGEKIT_PRIVATE_KEY);
     IMAGEKIT_URL_ENDPOINT := sample_world.(IMAGEKIT_URL_ENDPOINT);
     fs_existsSync := sample_world.(fs_existsSync);
     fs_readFileSync := sample_world.(fs_readFileSync);
     toString_base64 := sample_world.(toString_base64);
     path_basename := sample_world.(path_basename);
     ik_listFiles := fun _ _ => Ok [];
     ik_getFileDetails := sample_world.(ik_getFileDetails);
     ik_upload := sample_world.(ik_upload);
     ik_deleteFile := sample_world.(ik_deleteFile);
     ik_createFolder := sample_world.(ik_createFolder);
     ik_deleteFolder := sample_world.(ik_deleteFolder);
     ik_moveFile := sample_world.(ik_moveFile);
     ik_url := sample_world.(ik_url) |}.

(** ** Facts about the string primitives *)

Lemma endsWith_nil (p : string) : JS.endsWith "" p = String.eqb "" p.
Proof. unfold JS.endsWith. apply orb_false_r. Qed.

Lemma endsWith_cons (a : ascii) (s p : string) :
  JS.endsWith (String a s) p = String.eqb (String a s) p || JS.endsWith s p.
Proof. reflexivity. Qed.

Lemma endsWith_iff (s p : string) :
  JS.endsWith s p = true <-> exists q, s = q ++ p.
Proof.
  induction s as [| a s IH].
  - rewrite endsWith_nil, String.eqb_eq. split.
    + intros <-. now exists "".
    + intros [q H]. destruct q; simpl in H; [now symmetry | discriminate].
  - rewrite endsWith_cons, orb_true_iff, String.eqb_eq, IH. split.
    + intros [<- | [q ->]]; [now exists "" | now exists (String a q)].
    + intros [q H]. destruct q as [| b q]; simpl in H.
      * now left.
      * right. injection H as _ ->. now exists q.
Qed.

Lemma endsWith_false (s p : string) :
  JS.endsWith s p = false <-> forall q, s <> q ++ p.
Proof.
  split.
  - intros H q E. assert (T : JS.endsWith s p = true) by (apply endsWith_iff; eauto).
    congruence.
  - intros H. destruct (JS.endsWith s p) eqn:E; [| reflexivity].
    apply endsWith_iff in E as [q E]. now destruct (H q).
Qed.

Lemma slice_0_m1_snoc (q : string) (c : ascii) :
  JS.slice_0_m1 (q ++ String c "") = q.
Proof.
  induction q as [| a q IH]; simpl; [reflexivity |].
  rewrite IH. destruct q; reflexivity.
Qed.

Lemma app_assoc_str (a b c : string) : (a ++ b) ++ c = a ++ b ++ c.
Proof. induction a as [| x a IH]; simpl; [reflexivity | now rewrite IH]. Qed.

Lemma app_empty_r (a : string) : a ++ "" = a.
Proof. induction a as [| x a IH]; simpl; [reflexivity | now rewrite IH]. Qed.

Lemma length_app_str (a b : string) :
  String.length (a ++ b) = String.length a + String.length b.
Proof. induction a as [| x a IH]; simpl; [reflexivity | now rewrite IH]. Qed.

Lemma app_snoc_inj (a b : string) (c : ascii) :
  a ++ String c "" = b ++ String c "" -> a = b.
Proof.
  intros H. rewrite <- (slice_0_m1_snoc a c), <- (slice_0_m1_snoc b c). now rewrite H.
Qed.

(** ** Facts about [trimSlash] *)

Lemma trimSlash_fixed (g : string) :
  g <> "" -> JS.endsWith g "/" = false -> trimSlash (Some g) = g.
Proof.
  intros Hne Hend. destruct g as [| a g]; [congruence |].
  unfold trimSlash. now rewrite Hend.
Qed.

Lemma trimSlash_slash (q : string) : q <> "" -> trimSlash (Some (q ++ "/")) = q.
Proof.
  intros Hne. destruct q as [| a q]; [congruence |].
  change (trimSlash (Some (String a q ++ "/")))
    with (if JS.endsWith (String a q ++ "/") "/"
          then JS.slice_0_m1 (String a q ++ "/") else String a q ++ "/").
  assert (E : JS.endsWith (String a q ++ "/") "/" = true) by (apply endsWith_iff; eauto).
  rewrite E. apply slice_0_m1_snoc.
Qed.

Lemma trimSlash_cases (f : string) :
  f = "" /\ trimSlash (Some f) = "/"
  \/ f = "/" /\ trimSlash (Some f) = ""
  \/ (exists q, q <> "" /\ f = q ++ "/" /\ trimSlash (Some f) = q)
  \/ f <> "" /\ JS.endsWith f "/" = false /\ trimSlash (Some f) = f.
Proof.
  destruct f as [| a f]; [now left | right].
  destruct (JS.endsWith (String a f) "/") eqn:E.
  - apply endsWith_iff in E as [q E]. destruct q as [| b q].
    + left. simpl in E. now rewrite E.
    + right; left. exists (String b q). rewrite E.
      repeat split; [discriminate | now apply trimSlash_slash].
  - right; right. repeat split; [discriminate | now apply trimSlash_fixed].
Qed.

(** Exactly where trimming twice is trimming once. *)
Lemma trimSlash_twice_iff (f : string) :
  trimSlash (Some (trimSlash (Some f))) = trimSlash (Some f)
  <-> f <> "" /\ f <> "/" /\ JS.endsWith f "//" = false.
Proof.
  destruct (trimSlash_cases f) as [[-> H] | [[-> H] | [[q (Hq & -> & H)] | (Hne & He & H)]]];
    rewrite H.
  - split; [discriminate | intros (? & _); congruence].
  - split; [discriminate | intros (_ & ? & _); congruence].
  - destruct (JS.endsWith q "/") eqn:E.
    + split.
      * intros T. apply endsWith_iff in E as [r ->].
        destruct r as [| b r]; [discriminate T |].
        rewrite trimSlash_slash in T by discriminate.
        exfalso. clear -T. assert (L := f_equal String.length T).
        rewrite length_app_str in L. simpl in L. lia.
      * intros (_ & _ & F). exfalso. apply endsWith_iff in E as [r ->].
        rewrite endsWith_false in F. apply (F r). now rewrite app_assoc_str.
    + rewrite trimSlash_fixed by assumption. split; [intros _ | reflexivity].
      repeat split.
      * destruct q; [congruence | discriminate].
      * destruct q; [congruence |]. destruct q; discriminate.
      * apply endsWith_false. intros r T.
        change "//" with ("/" ++ "/") in T. rewrite <- app_assoc_str in T.
        apply app_snoc_inj in T. rewrite endsWith_false in E. now apply (E r).
  - rewrite trimSlash_fixed by assumption. split; [intros _ | reflexivity].
    repeat split; [assumption | intros ->; discriminate |].
    apply endsWith_false. intros r T. rewrite endsWith_false in He.
    apply (He (r ++ "/")). now rewrite app_assoc_str.
Qed.

(** ** Facts about [split] and the base64 payload *)

Lemma split_head (s : string) (c : ascii) :
  exists rest, JS.split s c = before_first s c :: rest.
Proof.
  induction s as [| d s [rest IH]]; simpl; [now exists [] |].
  destruct (Ascii.eqb d c); [now eexists |].
  rewrite IH. now exists rest.
Qed.

(** The second piece of a split is the remainder after the first separator,
    cut at the next separator. *)
Lemma split_second (s : string) (c : ascii) :
  JS.index (JS.split s c) 1
  = option_map (fun r => before_first r c) (after_first s c).
Proof.
  induction s as [| d s IH]; simpl; [reflexivity |].
  destruct (Ascii.eqb d c).
  - destruct (split_head s c) as [rest ->]. reflexivity.
  - destruct (split_head s c) as [rest E]. rewrite E in *. exact IH.
Qed.

Lemma clean_base64_char (base64Data : string) :
  clean_base64 base64Data
  = if JS.startsWith base64Data "data:"
    then option_map (fun r => before_first r ",") (after_first base64Data ",")
    else Some base64Data.
Proof. unfold clean_base64. now rewrite split_second. Qed.

(** On data whose remainder holds no further comma (any base64 text), the
    handler forwards what the specification asks for. *)
Lemma clean_base64_single_comma (base64Data r : string) :
  after_first base64Data "," = Some r -> before_first r "," = r ->
  clean_base64 base64Data = stripped_payload base64Data.
Proof.
  intros H1 H2. rewrite clean_base64_char. unfold stripped_payload.
  rewrite H1. simpl. now rewrite H2.
Qed.

Lemma clean_base64_no_prefix (base64Data : string) :
  JS.startsWith base64Data "data:" = false ->
  clean_base64 base64Data = Some base64Data.
Proof. unfold clean_base64. now intros ->. Qed.

Example clean_base64_png : clean_base64 "data:image/png;base64,AAAA" = Some "AAAA".
Proof. reflexivity. Qed.

Example clean_base64_plain : clean_base64 "AAAA" = Some "AAAA".
Proof. reflexivity. Qed.

Example clean_base64_hello : clean_base64 "data:text/plain;base64,aGVsbG8=" = Some "aGVsbG8=".
Proof. reflexivity. Qed.

Example clean_base64_no_comma : clean_base64 "data:AAAA" = None.
Proof. reflexivity. Qed.

(** ** Running [getClient] and [uploadToImageKit] *)

Lemma getClient_cached (w : World) (st : State) (c : Client) :
  client st = Some c -> getClient w st = (Ok c, st).
Proof. unfold getClient. now intros ->. Qed.

Lemma getClient_inv (w : World) (st : State) :
  (exists c, client st = Some c /\ getClient w st = (Ok c, st))
  \/ (client st = None /\ credentials_set w = false
      /\ exists e, getClient w st = (Throw e, st))
  \/ (client st = None /\ credentials_set w = true
      /\ exists c, getClient w st
                   = (Ok c, {| client := Some c; constructed := S (constructed st);
                               calls := calls st |})
         /\ ck_id c = constructed st
         /\ JS.truthy_str (ck_publicKey c) = true
         /\ JS.truthy_str (ck_privateKey c) = true
         /\ JS.truthy_str (ck_urlEndpoint c) = true).
Proof.
  unfold getClient, credentials_set. destruct (client st) as [c |]; [left; eauto | right].
  destruct (JS.truthy_str (IMAGEKIT_PUBLIC_KEY w)) eqn:E1;
    destruct (JS.truthy_str (IMAGEKIT_PRIVATE_KEY w)) eqn:E2;
    destruct (JS.truthy_str (IMAGEKIT_URL_ENDPOINT w)) eqn:E3; simpl;
    try (left; repeat split; eexists; reflexivity).
  right. repeat split. eexists. repeat split; assumption.
Qed.

Lemma getClient_ok (w : World) (st st1 : State) (c : Client) :
  getClient w st = (Ok c, st1) ->
  client st1 = Some c /\ calls st1 = calls st /\ client_ready w st = true.
Proof.
  intros H. unfold client_ready.
  destruct (getClient_inv w st)
    as [(c' & Hc & E) | [(Hc & Hs & e & E) | (Hc & Hs & c' & E & _)]];
    rewrite E in H; inversion H; subst; rewrite Hc; auto.
Qed.

Lemma getClient_ready (w : World) (st : State) :
  client_ready w st = true -> exists c st1, getClient w st = (Ok c, st1).
Proof.
  unfold client_ready. intros H.
  destruct (getClient_inv w st)
    as [(c' & Hc & E) | [(Hc & Hs & e & E) | (Hc & Hs & c' & E & _)]]; eauto.
  rewrite Hc in H. congruence.
Qed.

Lemma getClient_throw (w : World) (st st1 : State) (e : string) :
  getClient w st = (Throw e, st1) ->
  st1 = st /\ client st = None /\ credentials_set w = false.
Proof.
  intros H.
  destruct (getClient_inv w st)
    as [(c' & Hc & E) | [(Hc & Hs & e' & E) | (Hc & Hs & c' & E & _)]];
    rewrite E in H; inversion H; subst; auto.
Qed.

Lemma uploadToImageKit_calls (w : World) (fileData : option string) (fileName : string)
    (options : UploadOpts) (st st1 : State) (c : Client) :
  getClient w st = (Ok c, st1) ->
  calls (snd (uploadToImageKit w fileData fileName options st))
  = (calls st ++ [CallUpload c (uploadOptions_of fileData fileName options)])%list.
Proof.
  intros H. destruct (getClient_ok _ _ _ _ H) as (_ & Hcalls & _).
  unfold uploadToImageKit, bind, sdk. rewrite H.
  destruct (ik_upload w c _); simpl; now rewrite Hcalls.
Qed.

Lemma uploadToImageKit_no_client (w : World) (fileData : option string)
    (fileName : string) (options : UploadOpts) (st st1 : State) (e : string) :
  getClient w st = (Throw e, st1) ->
  uploadToImageKit w fileData fileName options st = (Throw e, st).
Proof.
  intros H. destruct (getClient_throw _ _ _ _ H) as (-> & _).
  unfold uploadToImageKit, bind. now rewrite H.
Qed.

(** ** The claims *)

(** C1 (code defect).  The specification asks [upload_base64_file] to forward
    the remainder after the first comma of data that starts with ["data:"];
    the handler forwards the second piece of [split(",")].  On
    ["data:text/plain;base64,AAAA,BBBB"] the remainder is ["AAAA,BBBB"], the
    handler hands ["AAAA"] to [uploadToImageKit]; on ["data:AAAA"], which
    has no comma, it hands over [undefined]. *)
Theorem upload_base64_file_second_piece :
  stripped_payload "data:text/plain;base64,AAAA,BBBB" = Some "AAAA,BBBB"
  /\ clean_base64 "data:text/plain;base64,AAAA,BBBB" = Some "AAAA"
  /\ clean_base64 "data:AAAA" = None
  /\ (forall w fileName options,
        upload_base64_file w "data:text/plain;base64,AAAA,BBBB" fileName options
        = uploadToImageKit w (Some "AAAA") fileName options)
  /\ calls (snd (upload_base64_file sample_world "data:text/plain;base64,AAAA,BBBB"
                   "notes.txt" default_options initial))
     = [CallUpload sample_client
          {| up_file := Some "AAAA"; up_fileName := "notes.txt"; up_folder := "";
             up_useUniqueFileName := true; up_isPrivateFile := false;
             up_overwriteFile := false; up_tags := None;
             up_customCoordinates := None; up_customMetadata := None |}].
Proof. repeat split. Qed.

(** C2 (counterexample).  Trimming is not idempotent: ["/a//"] trims to
    ["/a/"], which trims to ["/a"]. *)
Lemma trimSlash_not_idempotent :
  trimSlash (Some "/a//") = "/a/"
  /\ trimSlash (Some (trimSlash (Some "/a//"))) = "/a"
  /\ trimSlash (Some (trimSlash (Some "/a//"))) <> trimSlash (Some "/a//").
Proof. repeat split. discriminate. Qed.

(** C2 (as amended).  For every folder string [f] that is not empty, is not
    ["/"] and does not end with two slashes, trimming twice is trimming
    once; moreover [trim("")] is ["/"] and [trim("/a/b/")] is ["/a/b"]. *)
Theorem trimSlash_idempotent_amended (f : string) :
  f <> "" -> f <> "/" -> JS.endsWith f "//" = false ->
  trimSlash (Some (trimSlash (Some f))) = trimSlash (Some f)
  /\ trimSlash (Some "") = "/"
  /\ trimSlash (Some "/a/b/") = "/a/b".
Proof.
  intros H1 H2 H3. split; [| split; reflexivity].
  apply trimSlash_twice_iff. auto.
Qed.

Lemma trimSlash_idempotent_amended_witness :
  trimSlash (Some (trimSlash (Some "/photos/2026/"))) = trimSlash (Some "/photos/2026/")
  /\ trimSlash (Some "") = "/"
  /\ trimSlash (Some "/a/b/") = "/a/b".
Proof.
  apply (trimSlash_idempotent_amended "/photos/2026/");
    [discriminate | discriminate | reflexivity].
Defined.

(** C3 (counterexample).  An upload into ["/photos//"] sends the folder
    ["/photos/"]: it ends with a slash and is not the root. *)
Lemma upload_folder_keeps_a_slash :
  exists req,
    calls (snd (uploadToImageKit sample_world (Some "aGk=") "cat.png"
                  (mkUploadOpts (Some "/photos//") (Some true) (Some false) (Some false)
                     None None None)
                  initial))
    = [CallUpload sample_client req]
    /\ up_folder req = "/photos/"
    /\ JS.endsWith (up_folder req) "/" = true
    /\ up_folder req <> "/".
Proof. eexists. repeat split. discriminate. Qed.

(** C3 (as amended).  For every upload that reaches the backend, the folder
    of the request is ["/"] when the input folder is absent or empty; for an
    input other than ["/"] it is the input without its last character when
    the input ends with a slash, and the input itself otherwise; and it does
    not end with a slash, unless it is ["/"], whenever the input does not
    end with two slashes. *)
Theorem upload_folder_normalised (w : World) (fileData : option string)
    (fileName : string) (options : UploadOpts) (st st1 : State) (c : Client) :
  getClient w st = (Ok c, st1) ->
  exists req,
    calls (snd (uploadToImageKit w fileData fileName options st))
    = (calls st ++ [CallUpload c req])%list
    /\ (folder options = None \/ folder options = Some "" -> up_folder req = "/")
    /\ (forall f, folder options = Some f -> f <> "" -> f <> "/" ->
          (JS.endsWith f "/" = true -> f = up_folder req ++ "/")
          /\ (JS.endsWith f "/" = false -> up_folder req = f))
    /\ (forall f, folder options = Some f -> JS.endsWith f "//" = false ->
          JS.endsWith (up_folder req) "/" = false \/ up_folder req = "/").
Proof.
  intros H. exists (uploadOptions_of fileData fileName options).
  split; [now apply uploadToImageKit_calls with (st1 := st1) |].
  simpl. split; [| split].
  - intros [-> | ->]; reflexivity.
  - intros f -> Hne Hroot.
    destruct (trimSlash_cases f)
      as [[-> _] | [[-> _] | [[q (Hq & -> & E)] | (_ & He & E)]]];
      try congruence; rewrite E.
    + split; [reflexivity |]. intros F.
      assert (T : JS.endsWith (q ++ "/") "/" = true) by (apply endsWith_iff; eauto).
      congruence.
    + split; [congruence | reflexivity].
  - intros f -> H2.
    destruct (trimSlash_cases f)
      as [[-> E] | [[-> E] | [[q (Hq & -> & E)] | (_ & He & E)]]]; rewrite E.
    + now right.
    + now left.
    + left. apply endsWith_false. intros r ->.
      rewrite endsWith_false in H2. apply (H2 r). now rewrite app_assoc_str.
    + now left.
Qed.

Lemma upload_folder_normalised_witness :
  exists req,
    calls (snd (uploadToImageKit sample_world (Some "aGk=") "cat.png"
                  (mkUploadOpts (Some "/photos/2026/") None None None None None None)
                  initial))
    = [CallUpload sample_client req]
    /\ up_folder req = "/photos/2026".
Proof.
  destruct (upload_folder_normalised sample_world (Some "aGk=") "cat.png"
              (mkUploadOpts (Some "/photos/2026/") None None None None None None)
              initial (mkState (Some sample_client) 1 []) sample_client eq_refl)
    as (req & Hcalls & _ & Hshape & _).
  exists req. split; [exact Hcalls |].
  destruct (Hshape "/photos/2026/" eq_refl) as [Hslash _];
    [discriminate | discriminate |].
  apply app_snoc_inj with (c := "/"%char). symmetry. exact (Hslash eq_refl).
Defined.

(** C4.  A [generate_url] call with neither [path] nor [src] returns the
    error result with the message "Either 'path' or 'src' is required." and
    leaves the state as it was: no client is constructed and nothing is
    called on the SDK. *)
Theorem generate_url_requires_source (w : World) (st : State) (i : GenerateUrlInput) :
  in_path i = None -> in_src i = None ->
  generate_url w (generate_url_schema i) st
  = (Ok {| content := [ {| type := "text";
                           text := "Either 'path' or 'src' is required." |} ];
           isError := Some true |},
     st).
Proof.
  intros Hp Hs. unfold generate_url, generate_url_schema. simpl.
  rewrite Hp, Hs. reflexivity.
Qed.

Lemma generate_url_requires_source_witness :
  generate_url bare_world
    (generate_url_schema (mkGenerateUrlInput None None None None (Some true) None))
    initial
  = (Ok (formatError "Either 'path' or 'src' is required."), initial)
  /\ calls initial = [] /\ constructed initial = 0.
Proof.
  split; [| split; reflexivity].
  apply (generate_url_requires_source bare_world initial
           (mkGenerateUrlInput None None None None (Some true) None));
    reflexivity.
Defined.

Lemma generate_url_run (w : World) (st st1 : State) (c : Client) (a : GenerateUrlArgs) :
  getClient w st = (Ok c, st1) ->
  JS.truthy_str (gu_path a) || JS.truthy_str (gu_src a) = true ->
  generate_url w a st
  = (match ik_url w c (url_options_of a) with
     | Ok url =>
         Ok (formatResult
               ("Generated URL:" ++ JS.nl ++ JS.nl ++ "   " ++ url
                ++ (if gu_signed a
                    then JS.nl ++ JS.nl ++ "   Signed: yes, expires in "
                         ++ JS.num_toString (gu_expireSeconds a) ++ "s"
                    else "")))
     | Throw e => Throw e
     end,
     {| client := client st1; constructed := constructed st1;
        calls := (calls st ++ [CallUrl c (url_options_of a)])%list |}).
Proof.
  intros H Hsrc. destruct (getClient_ok _ _ _ _ H) as (_ & Hcalls & _).
  unfold generate_url.
  replace (negb (JS.truthy_str (gu_path a)) && negb (JS.truthy_str (gu_src a)))
    with false
    by (apply orb_true_iff in Hsrc as [-> | ->];
        [reflexivity | symmetry; apply andb_false_r]).
  unfold bind, sdk. rewrite H, Hcalls.
  destruct (ik_url w c (url_options_of a)); reflexivity.
Qed.



(** C6.  An [upload_file] call on a path at which nothing exists returns the
    error result "File not found: <filePath>" and leaves the state as it
    was: no client is constructed and no upload is attempted. *)
Theorem upload_file_missing (w : World) (st : State) (filePath : string)
    (fileName : option string) (options : UploadOpts) :
  fs_existsSync w filePath = false ->
  upload_file w filePath fileName options st
  = (Ok {| content := [ {| type := "text"; text := "File not found: " ++ filePath |} ];
           isError := Some true |},
     st).
Proof. intros H. unfold upload_file. rewrite H. reflexivity. Qed.

Lemma upload_file_missing_witness :
  upload_file sample_world "/tmp/dog.png" None default_options initial
  = (Ok (formatError "File not found: /tmp/dog.png"), initial).
Proof.
  apply (upload_file_missing sample_world initial "/tmp/dog.png" None default_options).
  reflexivity.
Defined.

(** C8.  [list_folders] on ["/photos"], when the backend lists exactly one
    entry of type file and one of type folder (in either order), returns the
    header with the count 1 followed by the folder entry alone. *)
Theorem list_folders_photos (w : World) (st st1 : State) (c : Client)
    (fileEntry folderEntry : FileObject) (listing : list FileObject) :
  getClient w st = (Ok c, st1) ->
  fo_type fileEntry = Some "file" ->
  fo_type folderEntry = Some "folder" ->
  listing = [fileEntry; folderEntry] \/ listing = [folderEntry; fileEntry] ->
  ik_listFiles w c
    {| lp_path := "/photos"; lp_limit := None; lp_skip := None; lp_sort := None;
       lp_includeFolder := true; lp_searchQuery := None; lp_fileType := None;
       lp_type := Some "folder" |}
  = Ok listing ->
  fst (list_folders w "/photos" st)
  = Ok {| content :=
            [ {| type := "text";
                 text := "Found 1 folder(s) in " ++ JS.dq ++ "/photos" ++ JS.dq ++ ":"
                         ++ JS.nl ++ JS.nl
                         ++ JS.tmpl_str (fo_name folderEntry) ++ JS.nl
                         ++ "   ID: " ++ JS.tmpl_str (fo_folderId folderEntry) ++ JS.nl
                         ++ "   Path: " ++ JS.tmpl_str (fo_folderPath folderEntry) |} ];
          isError := None |}.
Proof.
  intros H Hfile Hfolder Hlisting Hbackend.
  unfold list_folders, bind, sdk. rewrite H, Hbackend.
  assert (F : filter is_folder listing = [folderEntry]).
  { destruct Hlisting as [-> | ->]; simpl; unfold is_folder;
      rewrite Hfile, Hfolder; reflexivity. }
  rewrite F. reflexivity.
Qed.

Lemma list_folders_photos_witness :
  fst (list_folders sample_world "/photos" initial)
  = Ok (formatResult
          ("Found 1 folder(s) in " ++ JS.dq ++ "/photos" ++ JS.dq ++ ":" ++ JS.nl ++ JS.nl
           ++ "2026" ++ JS.nl ++ "   ID: d1" ++ JS.nl ++ "   Path: /photos/2026")).
Proof.
  apply (list_folders_photos sample_world initial (mkState (Some sample_client) 1 [])
           sample_client sample_object sample_folder [sample_object; sample_folder]);
    try reflexivity.
  left. reflexivity.
Defined.

(** ** [formatFileInfo] *)

Lemma tenths_of_1024_nearest (x : Z) :
  (0 <= x)%Z ->
  (0 <= JS.tenths_of_1024 x)%Z
  /\ (-512 < 1024 * JS.tenths_of_1024 x - 10 * x <= 512)%Z.
Proof.
  intros Hx. unfold JS.tenths_of_1024.
  pose proof (Z.div_mod (10 * x + 512) 1024 ltac:(lia)) as E.
  pose proof (Z.mod_pos_bound (10 * x + 512) 1024 ltac:(lia)) as B.
  split; [apply Z.div_pos; lia | lia].
Qed.

Lemma KB_not_NA (s : string) : s ++ " KB" <> "N/A".
Proof.
  intros E. assert (L := f_equal String.length E).
  rewrite length_app_str in L. simpl in L.
  destruct s; [discriminate E | simpl in L; lia].
Qed.

Lemma truthy_num_iff (v : option Z) : JS.truthy_num v = true <-> present_nonzero v.
Proof.
  unfold JS.truthy_num, present_nonzero. destruct v as [z |].
  - rewrite negb_true_iff, Z.eqb_neq. split.
    + intros H. now exists z.
    + intros (z' & E & H). now inversion E; subst.
  - split; [discriminate | intros (z & E & _); discriminate].
Qed.

Lemma truthy_num_false (v : option Z) :
  JS.truthy_num v = false <-> v = None \/ v = Some 0%Z.
Proof.
  unfold JS.truthy_num. destruct v as [z |].
  - rewrite negb_false_iff, Z.eqb_eq. split.
    + intros ->. now right.
    + intros [E | E]; [discriminate | now inversion E].
  - split; auto.
Qed.

(** C7 (counterexample).  A file whose size is present and zero is rendered
    with "N/A", and one whose width is present and zero without dimensions. *)
Lemma formatFileInfo_zero_size :
  formatFileInfo
    (mkFileObject (Some "file") (Some "empty.txt") (Some "f0") None None
       (Some "/empty.txt") (Some "non-image") (Some 0%Z) (Some 0%Z) (Some 7%Z)
       (Some []) (Some "https://ik.example/empty.txt") None None)
  = "empty.txt (non-image, N/A)" ++ JS.nl ++ "   ID: f0" ++ JS.nl
    ++ "   URL: https://ik.example/empty.txt".
Proof. reflexivity. Qed.

(** C7 (as amended).  [formatFileInfo] renders the name; the type, or
    "file" when the type is absent or empty; the size in KB with one decimal
    (the nearest tenth of size/1024), or "N/A" exactly when the size is
    absent or zero; the dimensions "WxH" exactly when width and height are
    both present and not zero; a Tags line exactly when the tags are present
    and not empty; then the id and the url on the following lines. *)
Theorem formatFileInfo_rendering (file : FileObject) :
  exists ty sz dm tg,
    formatFileInfo file
    = JS.tmpl_str (fo_name file) ++ " (" ++ ty ++ ", " ++ sz ++ dm ++ ")" ++ tg
      ++ JS.nl ++ "   ID: " ++ JS.tmpl_str (fo_fileId file)
      ++ JS.nl ++ "   URL: " ++ JS.tmpl_str (fo_url file)
    /\ ((forall t, fo_fileType file = Some t -> t <> "" -> ty = t)
        /\ (fo_fileType file = None \/ fo_fileType file = Some "" -> ty = "file"))
    /\ ((sz = "N/A" <-> fo_size file = None \/ fo_size file = Some 0%Z)
        /\ (forall z, fo_size file = Some z -> z <> 0%Z ->
              exists n,
                (0 <= n)%Z
                /\ (-512 < 1024 * n - 10 * Z.abs z <= 512)%Z
                /\ sz = (if (z <? 0)%Z then "-" else "")
                        ++ JS.num_toString (n / 10) ++ "."
                        ++ JS.num_toString (n mod 10) ++ " KB"))
    /\ ((forall wd ht, fo_width file = Some wd -> fo_height file = Some ht ->
           wd <> 0%Z -> ht <> 0%Z ->
           dm = ", " ++ JS.num_toString wd ++ "x" ++ JS.num_toString ht)
        /\ (dm = "" <-> ~ (present_nonzero (fo_width file)
                           /\ present_nonzero (fo_height file))))
    /\ ((forall t ts, fo_tags file = Some (t :: ts) ->
           tg = JS.nl ++ "   Tags: " ++ JS.join (t :: ts) ", ")
        /\ (tg = "" <-> fo_tags file = None \/ fo_tags file = Some [])).
Proof.
  exists (JS.or_str (fo_fileType file) "file"), (fileInfo_size file),
    (if JS.truthy_str (Some (fileInfo_dims file)) then ", " ++ fileInfo_dims file else ""),
    (fileInfo_tags file).
  split; [reflexivity |]. split; [| split; [| split]].
  - split.
    + intros t -> Ht. destruct t; [congruence | reflexivity].
    + intros [-> | ->]; reflexivity.
  - unfold fileInfo_size. split.
    + destruct (JS.truthy_num (fo_size file)) eqn:E.
      * split; [intros F; now apply KB_not_NA in F |].
        intros F. apply truthy_num_false in F. congruence.
      * split; [intros _; now apply truthy_num_false | reflexivity].
    + intros z Hz Hnz. rewrite Hz. simpl.
      replace (negb (z =? 0)%Z) with true
        by (symmetry; now apply negb_true_iff, Z.eqb_neq).
      unfold JS.div1024_toFixed1, JS.fixed1_abs.
      destruct (z <? 0)%Z eqn:Hs.
      * apply Z.ltb_lt in Hs.
        destruct (tenths_of_1024_nearest (- z) ltac:(lia)) as [P N].
        exists (JS.tenths_of_1024 (- z)).
        split; [exact P |]. split; [rewrite Z.abs_neq by lia; exact N |].
        simpl. now rewrite app_assoc_str.
      * apply Z.ltb_ge in Hs.
        destruct (tenths_of_1024_nearest z Hs) as [P N].
        exists (JS.tenths_of_1024 z).
        split; [exact P |]. split; [rewrite Z.abs_eq by lia; exact N |].
        simpl. now rewrite app_assoc_str.
  - unfold fileInfo_dims. split.
    + intros wd ht -> -> Hw Hh. simpl.
      replace (negb (wd =? 0)%Z) with true
        by (symmetry; now apply negb_true_iff, Z.eqb_neq).
      replace (negb (ht =? 0)%Z) with true
        by (symmetry; now apply negb_true_iff, Z.eqb_neq).
      simpl. destruct (JS.num_toString wd); reflexivity.
    + destruct (JS.truthy_num (fo_width file) && JS.truthy_num (fo_height file)) eqn:E.
      * apply andb_true_iff in E as [E1 E2].
        rewrite truthy_num_iff in E1, E2.
        split; [| intros F; now destruct F].
        intros F. exfalso.
        destruct (JS.tmpl_num (fo_width file)); discriminate F.
      * split; [| reflexivity]. intros _ [F1 F2].
        rewrite <- truthy_num_iff in F1, F2. rewrite F1, F2 in E. discriminate.
  - unfold fileInfo_tags. split.
    + intros t ts ->. reflexivity.
    + destruct (fo_tags file) as [[| t ts] |].
      * split; auto.
      * split; [discriminate | intros [F | F]; discriminate].
      * split; auto.
Qed.

Lemma formatFileInfo_rendering_witness :
  formatFileInfo sample_object
  = "cat.png (image, 2.0 KB, 10x20)" ++ JS.nl ++ "   Tags: pet, cat" ++ JS.nl
    ++ "   ID: f1" ++ JS.nl ++ "   URL: https://ik.example/cat.png".
Proof.
  destruct (formatFileInfo_rendering sample_object)
    as (ty & sz & dm & tg & E & [Hty _] & [_ Hsz] & [Hdm _] & [Htg _]).
  rewrite E.
  rewrite (Hty "image" eq_refl ltac:(discriminate)).
  rewrite (Hdm 10%Z 20%Z eq_refl eq_refl ltac:(discriminate) ltac:(discriminate)).
  rewrite (Htg "pet" ["cat"] eq_refl).
  destruct (Hsz 2048%Z eq_refl ltac:(discriminate)) as (n & Hn0 & Hn & ->).
  assert (n = 20%Z) as -> by lia.
  reflexivity.
Defined.

(** ** The client singleton across tool calls *)

(** A handler leaves [client] and [constructed] as they were, or as one call
    of [getClient] leaves them. *)
Lemma handle_client (w : World) (t : ToolCall) (st : State) :
  (client (snd (handle w t st)) = client st
   /\ constructed (snd (handle w t st)) = constructed st)
  \/ (client (snd (handle w t st)) = client (snd (getClient w st))
      /\ constructed (snd (handle w t st)) = constructed (snd (getClient w st))).
Proof.
  destruct t; simpl;
    unfold list_files, list_folders, get_file_details, upload_file,
      upload_file_from_url, upload_base64_file, delete_file, create_folder,
      delete_folder, move_file, generate_url, uploadToImageKit, bind, sdk, lift, ret;
    repeat match goal with
      | |- context [if ?b then _ else _] => destruct b; simpl; auto
      | |- context [fs_readFileSync ?x ?p] => destruct (fs_readFileSync x p); simpl; auto
      | |- context [getClient ?x ?s] => destruct (getClient x s) as [[? | ?] ?]; simpl; auto
      | |- context [match ?r with Ok _ => _ | Throw _ => _ end] => destruct r; simpl; auto
      end.
Qed.

Lemma getClient_keeps_singleton (w : World) (st : State) :
  singleton_ok st -> singleton_ok (snd (getClient w st)).
Proof.
  intros H.
  destruct (getClient_inv w st)
    as [(c & Hc & E) | [(Hc & Hs & e & E) | (Hc & Hs & c & E & Hid & H1 & H2 & H3)]];
    rewrite E; simpl; [assumption | assumption |].
  unfold singleton_ok in *. rewrite Hc in H. simpl. rewrite Hid, H. auto.
Qed.

Lemma handle_keeps_singleton (w : World) (t : ToolCall) (st : State) :
  singleton_ok st -> singleton_ok (snd (handle w t st)).
Proof.
  intros H. pose proof (getClient_keeps_singleton w st H) as G.
  unfold singleton_ok in *.
  destruct (handle_client w t st) as [[E1 E2] | [E1 E2]]; now rewrite E1, E2.
Qed.

Lemma getClient_keeps_client (w : World) (st : State) (c : Client) :
  client st = Some c -> client (snd (getClient w st)) = Some c.
Proof. intros H. now rewrite (getClient_cached w st c H). Qed.

Lemma handle_keeps_client (w : World) (t : ToolCall) (st : State) (c : Client) :
  client st = Some c -> client (snd (handle w t st)) = Some c.
Proof.
  intros H. pose proof (getClient_keeps_client w st c H) as G.
  destruct (handle_client w t st) as [[E _] | [E _]]; congruence.
Qed.

Lemma later_keeps_client (st st' : State) (c : Client) :
  later st st' -> client st = Some c -> client st' = Some c.
Proof.
  induction 1 as [st | st st' w t _ IH | st st' w _ IH]; intros H.
  - exact H.
  - apply handle_keeps_client. now apply IH.
  - apply getClient_keeps_client. now apply IH.
Qed.

Lemma later_keeps_singleton (st st' : State) :
  later st st' -> singleton_ok st -> singleton_ok st'.
Proof.
  induction 1 as [st | st st' w t _ IH | st st' w _ IH]; intros H.
  - exact H.
  - apply handle_keeps_singleton. now apply IH.
  - apply getClient_keeps_singleton. now apply IH.
Qed.

(** C9.  The state holds no client or the one client ever constructed, at
    the start and after every tool call and every call of [getClient].  Once
    [getClient] has answered with a client, that client stays cached and
    every later call, after any tool calls and in any environment, answers
    with the same client and changes nothing.  When [getClient] throws, the
    state is unchanged and holds no client, and a later call made with the
    three credentials set constructs a client and caches it. *)
Theorem client_singleton :
  singleton_ok initial
  /\ (forall st, later initial st -> singleton_ok st)
  /\ (forall w st c st1,
        getClient w st = (Ok c, st1) ->
        client st1 = Some c
        /\ forall st2, later st1 st2 ->
             forall w', getClient w' st2 = (Ok c, st2))
  /\ (forall w st e st1,
        getClient w st = (Throw e, st1) ->
        st1 = st /\ client st1 = None
        /\ forall w', credentials_set w' = true ->
             exists c st2, getClient w' st1 = (Ok c, st2) /\ client st2 = Some c).
Proof.
  split; [reflexivity |]. split; [| split].
  - intros st H. now apply (later_keeps_singleton initial).
  - intros w st c st1 H. destruct (getClient_ok _ _ _ _ H) as (Hc & _).
    split; [exact Hc |]. intros st2 L w'.
    apply getClient_cached. now apply (later_keeps_client st1).
  - intros w st e st1 H. destruct (getClient_throw _ _ _ _ H) as (-> & Hc & _).
    split; [reflexivity |]. split; [exact Hc |]. intros w' Hw'.
    destruct (getClient_ready w' st) as (c & st2 & E).
    { unfold client_ready. now rewrite Hc. }
    exists c, st2. split; [exact E |]. now destruct (getClient_ok _ _ _ _ E).
Qed.

Lemma client_singleton_witness :
  (exists e, getClient bare_world initial = (Throw e, initial))
  /\ getClient sample_world initial = (Ok sample_client, mkState (Some sample_client) 1 [])
  /\ getClient bare_world
       (snd (handle sample_world (Tool_list_folders "/photos")
               (mkState (Some sample_client) 1 [])))
     = (Ok sample_client,
        snd (handle sample_world (Tool_list_folders "/photos")
               (mkState (Some sample_client) 1 []))).
Proof.
  destruct client_singleton as (_ & _ & Hok & Hthrow).
  split; [| split].
  - eexists. reflexivity.
  - destruct (Hthrow bare_world initial _ initial eq_refl) as (_ & _ & Hnext).
    destruct (Hnext sample_world eq_refl) as (c & st2 & E & _).
    reflexivity.
  - destruct (Hok sample_world initial sample_client
                (mkState (Some sample_client) 1 []) eq_refl) as (_ & Hlater).
    apply Hlater. apply later_tool. apply later_here.
Defined.

(** ** Optional fields of an upload *)

(** Each upload tool either stops before the upload, leaving the state as
    it was, or runs [uploadToImageKit] on a payload and a name that do not
    depend on the options. *)
Lemma upload_call_cases (w : World) (s : UploadSource) (st : State) :
  (exists r, forall o, handle w (upload_call s o) st = (r, st))
  \/ (exists d n, forall o, handle w (upload_call s o) st = uploadToImageKit w d n o st).
Proof.
  destruct s as [p n | u n | d n]; simpl.
  - unfold upload_file. destruct (fs_existsSync w p); simpl.
    + unfold bind, lift. destruct (fs_readFileSync w p) as [buffer | e].
      * right. now eexists _, _.
      * left. now eexists.
    + left. now eexists.
  - right. now eexists _, _.
  - right. now eexists _, _.
Qed.

(** An empty [customMetadata] object, unlike an empty tag list, is sent. *)
Remark empty_customMetadata_sent (fileData : option string) (fileName : string) :
  up_customMetadata
    (uploadOptions_of fileData fileName
       (mkUploadOpts (Some "/") (Some true) (Some false) (Some false) (Some [])
          (Some "") (Some [])))
  = Some []
  /\ up_tags
       (uploadOptions_of fileData fileName
          (mkUploadOpts (Some "/") (Some true) (Some false) (Some false) (Some [])
             (Some "") (Some [])))
     = None.
Proof. split; reflexivity. Qed.

(** C10.  For each of the three upload tools: a call with an empty tag list
    runs exactly as the call without tags, and a call with the empty string
    as [customCoordinates] exactly as the call without them (same result,
    same state, same request); validation passes the three fields on as they
    are; and in every request the call sends, [tags] is missing when the
    tag list is empty or absent, [customCoordinates] is missing when it is
    the empty string or absent, and [customMetadata] is missing when it is
    absent. *)
Theorem empty_optional_fields_omitted (w : World) (s : UploadSource)
    (o : UploadOpts) (st : State) :
  handle w (upload_call s (with_tags o (Some []))) st
  = handle w (upload_call s (with_tags o None)) st
  /\ handle w (upload_call s (with_customCoordinates o (Some ""))) st
     = handle w (upload_call s (with_customCoordinates o None)) st
  /\ (tags (uploadOptionsSchema o) = tags o
      /\ customCoordinates (uploadOptionsSchema o) = customCoordinates o
      /\ customMetadata (uploadOptionsSchema o) = customMetadata o)
  /\ exists new,
       calls (snd (handle w (upload_call s o) st)) = (calls st ++ new)%list
       /\ forall c req, In (CallUpload c req) new ->
            (tags o = Some [] \/ tags o = None -> up_tags req = None)
            /\ (customCoordinates o = Some "" \/ customCoordinates o = None ->
                up_customCoordinates req = None)
            /\ (customMetadata o = None -> up_customMetadata req = None).
Proof.
  destruct (upload_call_cases w s st) as [[r E] | (d & n & E)].
  - rewrite !E. repeat split. exists []. simpl. rewrite app_nil_r.
    split; [reflexivity | intros c req []].
  - rewrite !E. split; [reflexivity |]. split; [reflexivity |].
    split; [repeat split |].
    destruct (getClient w st) as [[c | e] st1] eqn:G.
    + exists [CallUpload c (uploadOptions_of d n o)].
      split; [now apply uploadToImageKit_calls with (st1 := st1) |].
      intros c' req [F | []]. inversion F; subst. simpl. repeat split.
      * intros [-> | ->]; reflexivity.
      * intros [-> | ->]; reflexivity.
      * auto.
    + exists []. rewrite (uploadToImageKit_no_client _ _ _ _ _ _ _ G). simpl.
      rewrite app_nil_r. split; [reflexivity | intros c req []].
Qed.

Lemma empty_optional_fields_omitted_witness :
  exists req,
    calls (snd (handle sample_world
                  (upload_call (FromBase64 "data:image/png;base64,AAAA" "a.png")
                     (mkUploadOpts (Some "/photos/") (Some true) (Some false) (Some false)
                        (Some []) (Some "") None))
                  initial))
    = [CallUpload sample_client req]
    /\ up_tags req = None /\ up_customCoordinates req = None
    /\ up_customMetadata req = None.
Proof.
  destruct (empty_optional_fields_omitted sample_world
              (FromBase64 "data:image/png;base64,AAAA" "a.png")
              (mkUploadOpts (Some "/photos/") (Some true) (Some false) (Some false)
                 (Some []) (Some "") None)
              initial) as (_ & _ & _ & new & Hcalls & Hreq).
  change (calls initial ++ new)%list with new in Hcalls.
  exists (uploadOptions_of (Some "AAAA") "a.png"
            (mkUploadOpts (Some "/photos/") (Some true) (Some false) (Some false)
               (Some []) (Some "") None)).
  split; [reflexivity |].
  destruct (Hreq sample_client
              (uploadOptions_of (Some "AAAA") "a.png"
                 (mkUploadOpts (Some "/photos/") (Some true) (Some false) (Some false)
                    (Some []) (Some "") None)))
    as (Ht & Hc & Hm).
  { rewrite <- Hcalls. left. reflexivity. }
  split; [apply Ht; left; reflexivity |].
  split; [apply Hc; left; reflexivity | apply Hm; reflexivity].
Defined.

(** ** Further properties of the handlers *)

(** The shape of every tool call: it stops before touching the client, with
    an error result or a thrown error and the state as it was; or it obtains
    the client and makes exactly one call on it, whose answer decides the
    outcome. *)
Lemma handle_shape (w : World) (t : ToolCall) (st : State) :
  (snd (handle w t st) = st
   /\ ((exists msg, fst (handle w t st) = Ok (formatError msg))
       \/ (exists e, fst (handle w t st) = Throw e
           /\ ((e = missing_credentials /\ client_ready w st = false)
               \/ exists p, fs_readFileSync w p = Throw e))))
  \/ (exists c st1 k,
        getClient w st = (Ok c, st1)
        /\ snd (handle w t st)
           = {| client := client st1; constructed := constructed st1;
                calls := (calls st ++ [k])%list |}
        /\ call_client k = c
        /\ match call_error w k with
           | Some e => fst (handle w t st) = Throw e
           | None => exists text, fst (handle w t st) = Ok (formatResult text)
           end).
Proof.
  assert (Hno : forall e st1, getClient w st = (Throw e, st1) ->
                  st1 = st /\ e = missing_credentials /\ client_ready w st = false).
  { intros e st1 G. destruct (getClient_throw _ _ _ _ G) as (-> & Hc & Hs).
    split; [reflexivity |]. unfold client_ready. rewrite Hc. split; [| exact Hs].
    unfold getClient in G. rewrite Hc in G. unfold credentials_set in Hs.
    destruct (JS.truthy_str (IMAGEKIT_PUBLIC_KEY w));
      destruct (JS.truthy_str (IMAGEKIT_PRIVATE_KEY w));
      destruct (JS.truthy_str (IMAGEKIT_URL_ENDPOINT w));
      simpl in G, Hs; try discriminate Hs; now inversion G. }
  destruct t; simpl;
    unfold list_files, list_folders, get_file_details, upload_file,
      upload_file_from_url, upload_base64_file, delete_file, create_folder,
      delete_folder, move_file, generate_url, uploadToImageKit, bind, lift, ret;
    repeat match goal with
      | |- context [if negb ?b then _ else _] =>
          destruct b; cbn [negb andb];
          try (left; split; [reflexivity | left; eexists; reflexivity])
      | |- context [if negb ?b && _ then _ else _] =>
          destruct b; cbn [negb andb];
          try (left; split; [reflexivity | left; eexists; reflexivity])
      | |- context [fs_readFileSync ?x ?p] =>
          let E := fresh "E" in
          destruct (fs_readFileSync x p) eqn:E; cbn [fst snd];
          try (left; split; [reflexivity |]; right; eexists; split; [reflexivity |];
               right; eexists; exact E)
      end;
    (destruct (getClient w st) as [[c | e] st1] eqn:G;
     [ destruct (getClient_ok _ _ _ _ G) as (_ & Hcalls & _);
       right; exists c, st1; unfold sdk; rewrite Hcalls;
       match goal with
       | |- context [match ?r with Ok _ => _ | Throw _ => _ end] =>
           let R := fresh "R" in
           destruct r eqn:R; cbn [fst snd];
           try match goal with
             | |- context [if Nat.eqb ?n 0 then _ else _] => destruct (Nat.eqb n 0)
             end;
           cbn [fst snd];
           eexists; (split; [reflexivity |]); (split; [reflexivity |]);
           (split; [reflexivity |]); cbn [call_error]; rewrite R; cbn [thrown];
           try reflexivity; eexists; reflexivity
       end
     | destruct (Hno _ _ eq_refl) as (-> & -> & Hr);
       left; cbn [fst snd]; split; [reflexivity |]; right; eexists;
       split; [reflexivity |]; left; split; [reflexivity | exact Hr] ]).
Qed.

Lemma app_one_neq {A : Type} (l : list A) (x : A) : l <> (l ++ [x])%list.
Proof.
  intros E. apply (f_equal (@List.length A)) in E.
  rewrite length_app in E. simpl in E. lia.
Qed.

Lemma app_one_inj {A : Type} (l : list A) (x y : A) :
  (l ++ [x])%list = (l ++ [y])%list -> x = y.
Proof. intros E. apply app_inv_head in E. now inversion E. Qed.

(** X1.  Without a cached client and with a credential unset or empty, no
    tool call changes the state (no client is constructed, nothing is called
    on the SDK) and none reports success. *)
Theorem handle_without_credentials (w : World) (t : ToolCall) (st : State) :
  client st = None -> credentials_set w = false ->
  snd (handle w t st) = st
  /\ forall r, fst (handle w t st) = Ok r -> isError r = Some true.
Proof.
  intros Hc Hs.
  destruct (handle_shape w t st)
    as [(E & [(msg & R) | (e & R & _)]) | (c & st1 & k & G & _)].
  - split; [exact E |]. intros r Hr. rewrite R in Hr. now inversion Hr.
  - split; [exact E |]. intros r Hr. rewrite R in Hr. discriminate.
  - destruct (getClient_ok _ _ _ _ G) as (_ & _ & Hr).
    unfold client_ready in Hr. rewrite Hc in Hr. congruence.
Qed.

Lemma handle_without_credentials_witness :
  snd (handle bare_world (Tool_delete_file "f1") initial) = initial
  /\ forall r, fst (handle bare_world (Tool_delete_file "f1") initial) = Ok r ->
       isError r = Some true.
Proof.
  apply (handle_without_credentials bare_world (Tool_delete_file "f1") initial);
    reflexivity.
Defined.

(** X2.  A tool call appends at most one call to the record of calls made on
    the SDK and never rewrites what was recorded before. *)
Theorem handle_single_round_trip (w : World) (t : ToolCall) (st : State) :
  exists new,
    calls (snd (handle w t st)) = (calls st ++ new)%list
    /\ List.length new <= 1.
Proof.
  destruct (handle_shape w t st) as [(E & _) | (c & st1 & k & _ & E & _)];
    rewrite E.
  - exists []. split; [now rewrite app_nil_r | auto].
  - exists [k]. split; [reflexivity | auto].
Qed.

(** X3.  A tool call that returns a result either returns an error result
    and leaves the state as it was, or returns a success result after
    exactly one call on the SDK, made on the client that is cached
    afterwards and answered without an error. *)
Theorem handle_result_cases (w : World) (t : ToolCall) (st : State) (r : ToolResult) :
  fst (handle w t st) = Ok r ->
  (isError r = Some true /\ snd (handle w t st) = st)
  \/ (isError r = None
      /\ exists k,
           calls (snd (handle w t st)) = (calls st ++ [k])%list
           /\ call_error w k = None
           /\ client (snd (handle w t st)) = Some (call_client k)).
Proof.
  intros Hr.
  destruct (handle_shape w t st)
    as [(E & [(msg & R) | (e & R & _)]) | (c & st1 & k & G & E & Hk & R)].
  - left. rewrite R in Hr. inversion Hr. auto.
  - rewrite R in Hr. discriminate.
  - right. destruct (getClient_ok _ _ _ _ G) as (Hc & _).
    destruct (call_error w k) as [e |] eqn:Ek.
    + rewrite R in Hr. discriminate.
    + destruct R as [text R]. rewrite R in Hr. inversion Hr. split; [reflexivity |].
      exists k. rewrite E. simpl. rewrite Hk. auto.
Qed.

Lemma handle_result_cases_witness :
  exists k,
    calls (snd (handle sample_world (Tool_move_file "/a.png" "/b/") initial)) = [k]
    /\ call_error sample_world k = None.
Proof.
  destruct (handle_result_cases sample_world (Tool_move_file "/a.png" "/b/") initial
              _ eq_refl) as [[F _] | (_ & k & Hk & He & _)].
  - discriminate F.
  - exists k. split; [exact Hk | exact He].
Defined.



(** Every call recorded by a tool call was made on the client cached after
    it. *)
Lemma handle_calls_on_client (w : World) (t : ToolCall) (st : State) :
  (forall k, In k (calls st) -> client st = Some (call_client k)) ->
  forall k, In k (calls (snd (handle w t st))) ->
    client (snd (handle w t st)) = Some (call_client k).
Proof.
  intros Hold k Hin.
  destruct (handle_shape w t st) as [(E & _) | (c & st1 & k' & G & E & Hk & _)].
  - rewrite E in *. now apply Hold.
  - destruct (getClient_ok _ _ _ _ G) as (Hc & _).
    rewrite E in *. simpl in *. apply in_app_or in Hin as [Hin | [<- | []]].
    + pose proof (Hold k Hin) as H0.
      rewrite (getClient_cached w st _ H0) in G. inversion G; subst. exact H0.
    + now rewrite Hk.
Qed.

(** X5.  Along any run of tool calls and [getClient] calls from the initial
    state, every call made on the SDK was made on the one client held in the
    state. *)
Theorem calls_on_the_singleton (st : State) :
  later initial st ->
  forall k, In k (calls st) -> client st = Some (call_client k).
Proof.
  intros L. remember initial as st0 eqn:E0.
  induction L as [st | st st' w t L IH | st st' w L IH]; subst.
  - intros k [].
  - apply handle_calls_on_client. now apply IH.
  - intros k Hin. specialize (IH eq_refl).
    destruct (getClient_inv w st')
      as [(c & Hc & E) | [(Hc & Hs & e & E) | (Hc & Hs & c & E & _)]];
      rewrite E in *; simpl in *; try now apply IH.
    pose proof (IH k Hin) as H0. congruence.
Qed.

Lemma calls_on_the_singleton_witness :
  client (snd (handle sample_world (Tool_list_folders "/photos")
                 (snd (handle sample_world (Tool_delete_file "f1") initial))))
  = Some (call_client (CallDeleteFile sample_client "f1")).
Proof.
  apply (calls_on_the_singleton
           (snd (handle sample_world (Tool_list_folders "/photos")
                   (snd (handle sample_world (Tool_delete_file "f1") initial))))).
  - apply later_tool. apply later_tool. apply later_here.
  - left. reflexivity.
Defined.

(** X6.  [getClient] fails fast: with no client cached and a credential
    unset or empty it throws the missing-credentials error and leaves the
    state as it was; it throws in no other situation and with no other
    message; and a client it constructs holds the three values of the
    environment. *)
Theorem getClient_fail_fast (w : World) (st : State) :
  (client st = None ->
   JS.truthy_str (IMAGEKIT_PUBLIC_KEY w) = false
   \/ JS.truthy_str (IMAGEKIT_PRIVATE_KEY w) = false
   \/ JS.truthy_str (IMAGEKIT_URL_ENDPOINT w) = false ->
   getClient w st = (Throw missing_credentials, st))
  /\ (forall e st', getClient w st = (Throw e, st') ->
        e = missing_credentials /\ st' = st /\ client st = None
        /\ (JS.truthy_str (IMAGEKIT_PUBLIC_KEY w) = false
            \/ JS.truthy_str (IMAGEKIT_PRIVATE_KEY w) = false
            \/ JS.truthy_str (IMAGEKIT_URL_ENDPOINT w) = false))
  /\ (forall c st', client st = None -> getClient w st = (Ok c, st') ->
        ck_publicKey c = IMAGEKIT_PUBLIC_KEY w
        /\ ck_privateKey c = IMAGEKIT_PRIVATE_KEY w
        /\ ck_urlEndpoint c = IMAGEKIT_URL_ENDPOINT w
        /\ client st' = Some c /\ constructed st' = S (constructed st)
        /\ calls st' = calls st).
Proof.
  unfold getClient. destruct (client st) as [c0 |].
  - split; [discriminate |]. split; [discriminate |]. intros c st' F. discriminate F.
  - destruct (JS.truthy_str (IMAGEKIT_PUBLIC_KEY w)) eqn:E1;
      destruct (JS.truthy_str (IMAGEKIT_PRIVATE_KEY w)) eqn:E2;
      destruct (JS.truthy_str (IMAGEKIT_URL_ENDPOINT w)) eqn:E3; cbn [negb orb];
      (split; [intros _ H; try reflexivity; destruct H as [H | [H | H]]; discriminate H |]);
      (split; [intros e st' H; inversion H; subst; auto 6 |]);
      intros c st' _ H; inversion H; subst; simpl; auto 10.
Qed.

Lemma getClient_fail_fast_witness :
  getClient bare_world initial = (Throw missing_credentials, initial).
Proof.
  destruct (getClient_fail_fast bare_world initial) as [H _].
  apply H; [reflexivity | left; reflexivity].
Defined.

(** X7.  When the backend lists nothing, [list_files] makes its one query
    and answers with the "No files found" text, which quotes the path and,
    when a non-empty search query was given, the query. *)
Theorem list_files_nothing_found (w : World) (a : ListFilesArgs) (st st1 : State)
    (c : Client) :
  getClient w st = (Ok c, st1) ->
  (forall params, ik_listFiles w c params = Ok []) ->
  (JS.truthy_str (lf_searchQuery a) = false ->
   fst (list_files w a st)
   = Ok (formatResult ("No files found in " ++ JS.dq ++ lf_path a ++ JS.dq ++ ".")))
  /\ (forall q, lf_searchQuery a = Some q -> q <> "" ->
        fst (list_files w a st)
        = Ok (formatResult
                ("No files found in " ++ JS.dq ++ lf_path a ++ JS.dq ++ " matching "
                 ++ JS.dq ++ q ++ JS.dq ++ ".")))
  /\ exists params,
       calls (snd (list_files w a st)) = (calls st ++ [CallListFiles c params])%list.
Proof.
  intros G Hempty. destruct (getClient_ok _ _ _ _ G) as (_ & Hcalls & _).
  unfold list_files, bind, sdk. rewrite G, Hempty. cbn [fst snd length Nat.eqb ret].
  split; [| split].
  - intros ->. reflexivity.
  - intros q -> Hq. destruct q; [congruence |]. cbn [JS.truthy_str JS.tmpl_str].
    unfold formatResult. do 3 f_equal.
    now rewrite <- !app_assoc_str.
  - eexists. rewrite Hcalls. reflexivity.
Qed.

Lemma list_files_nothing_found_witness :
  fst (list_files empty_world
         (mkListFilesArgs "/photos" (Some "name = cat") 20 0 FtAll "DESC_CREATED") initial)
  = Ok (formatResult
          ("No files found in " ++ JS.dq ++ "/photos" ++ JS.dq ++ " matching "
           ++ JS.dq ++ "name = cat" ++ JS.dq ++ ".")).
Proof.
  destruct (list_files_nothing_found empty_world
              (mkListFilesArgs "/photos" (Some "name = cat") 20 0 FtAll "DESC_CREATED")
              initial (mkState (Some sample_client) 1 []) sample_client eq_refl
              (fun _ => eq_refl)) as (_ & H & _).
  apply (H "name = cat" eq_refl). discriminate.
Defined.




(** X9.  [generate_url] returns its error result exactly when [path] and
    [src] are both absent or empty: an empty string counts as absent, and
    with a non-empty path or src the handler goes on to [getClient]. *)
Theorem generate_url_gate (w : World) (a : GenerateUrlArgs) (st : State) :
  (JS.truthy_str (gu_path a) = false -> JS.truthy_str (gu_src a) = false ->
   generate_url w a st = (Ok (formatError "Either 'path' or 'src' is required."), st))
  /\ (forall msg, fst (generate_url w a st) = Ok (formatError msg) ->
        JS.truthy_str (gu_path a) = false /\ JS.truthy_str (gu_src a) = false).
Proof.
  split.
  - intros Hp Hs. unfold generate_url. now rewrite Hp, Hs.
  - intros msg H.
    destruct (JS.truthy_str (gu_path a) || JS.truthy_str (gu_src a)) eqn:E;
      [| now apply orb_false_iff in E].
    exfalso. destruct (getClient w st) as [[c | e] st1] eqn:G.
    + rewrite (generate_url_run w st st1 c a G E) in H. cbn [fst] in H.
      destruct (ik_url w c (url_options_of a)); [| discriminate H].
      inversion H.
    + unfold generate_url in H.
      replace (negb (JS.truthy_str (gu_path a)) && negb (JS.truthy_str (gu_src a)))
        with false in H
        by (apply orb_true_iff in E as [-> | ->];
            [reflexivity | symmetry; apply andb_false_r]).
      unfold bind in H. rewrite G in H. discriminate H.
Qed.

Lemma generate_url_gate_witness :
  generate_url sample_world (mkGenerateUrlArgs (Some "") (Some "") None PosPath true 300)
    initial
  = (Ok (formatError "Either 'path' or 'src' is required."), initial).
Proof.
  destruct (generate_url_gate sample_world
              (mkGenerateUrlArgs (Some "") (Some "") None PosPath true 300) initial)
    as [H _].
  apply H; reflexivity.
Defined.



(** X11.  [upload_file] on a path that exists and can be read uploads the
    base64 text of the bytes read, under the given file name, or under the
    base name of the path when the file name is absent or empty. *)
Theorem upload_file_sends_file (w : World) (filePath : string)
    (fileName : option string) (options : UploadOpts) (st st1 : State) (c : Client)
    (buffer : list Byte.byte) :
  fs_existsSync w filePath = true ->
  fs_readFileSync w filePath = Ok buffer ->
  getClient w st = (Ok c, st1) ->
  exists req,
    calls (snd (upload_file w filePath fileName options st))
    = (calls st ++ [CallUpload c req])%list
    /\ up_file req = Some (toString_base64 w buffer)
    /\ (JS.truthy_str fileName = false -> up_fileName req = path_basename w filePath)
    /\ (forall n, fileName = Some n -> n <> "" -> up_fileName req = n).
Proof.
  intros He Hr G. unfold upload_file. rewrite He. cbn [negb].
  unfold bind at 1. unfold lift. rewrite Hr.
  eexists. split; [now apply uploadToImageKit_calls with (st1 := st1) |].
  cbn [uploadOptions_of up_file up_fileName]. split; [reflexivity |]. split.
  - destruct fileName as [[| x n] |]; [reflexivity | discriminate | reflexivity].
  - intros n -> Hn. destruct n; [congruence | reflexivity].
Qed.

Lemma upload_file_sends_file_witness :
  exists req,
    calls (snd (upload_file sample_world "/tmp/cat.png" (Some "") default_options initial))
    = [CallUpload sample_client req]
    /\ up_file req = Some "aGk=" /\ up_fileName req = "cat.png".
Proof.
  destruct (upload_file_sends_file sample_world "/tmp/cat.png" (Some "") default_options
              initial (mkState (Some sample_client) 1 []) sample_client
              [Byte.x68; Byte.x69] eq_refl eq_refl eq_refl)
    as (req & Hc & Hf & Hn & _).
  exists req. split; [exact Hc |]. split; [exact Hf | exact (Hn eq_refl)].
Defined.

(** X12.  When the path exists but reading it throws (a directory, a file
    without read permission), [upload_file] throws the same error and leaves
    the state as it was: no client is constructed and nothing is uploaded. *)
Theorem upload_file_read_error (w : World) (filePath : string)
    (fileName : option string) (options : UploadOpts) (st : State) (e : string) :
  fs_existsSync w filePath = true ->
  fs_readFileSync w filePath = Throw e ->
  upload_file w filePath fileName options st = (Throw e, st).
Proof.
  intros He Hr. unfold upload_file. rewrite He. cbn [negb].
  unfold bind, lift. now rewrite Hr.
Qed.

Lemma upload_file_read_error_witness :
  upload_file (failing_world "quota") "/tmp" None default_options initial
  = (Throw "EISDIR: illegal operation on a directory, read", initial).
Proof.
  apply (upload_file_read_error (failing_world "quota") "/tmp" None default_options
           initial); reflexivity.
Defined.

(** X13.  What the schema defaults become in an upload: for options
    validated by the upload schema, a request sent by any of the three tools
    carries the folder [""] when no folder was given (the default ["/"]
    loses its slash) and ["/"] when the empty string was given, and each of
    the three flags as given, or [true], [false], [false] when left out. *)
Theorem upload_defaults_sent (w : World) (s : UploadSource) (raw : UploadOpts)
    (st : State) :
  exists new,
    calls (snd (handle w (upload_call s (uploadOptionsSchema raw)) st))
    = (calls st ++ new)%list
    /\ forall c req, In (CallUpload c req) new ->
         (folder raw = None -> up_folder req = "")
         /\ (folder raw = Some "" -> up_folder req = "/")
         /\ up_useUniqueFileName req = JS.nullish (useUniqueFileName raw) true
         /\ up_isPrivateFile req = JS.nullish (isPrivateFile raw) false
         /\ up_overwriteFile req = JS.nullish (overwriteFile raw) false.
Proof.
  destruct (upload_call_cases w s st) as [[r E] | (d & n & E)]; rewrite E.
  - exists []. simpl. rewrite app_nil_r. split; [reflexivity | intros c req []].
  - destruct (getClient w st) as [[c | e] st1] eqn:G.
    + exists [CallUpload c (uploadOptions_of d n (uploadOptionsSchema raw))].
      split; [now apply uploadToImageKit_calls with (st1 := st1) |].
      intros c' req [F | []]. inversion F; subst. simpl.
      split; [now intros -> |]. split; [now intros -> |]. auto.
    + exists []. rewrite (uploadToImageKit_no_client _ _ _ _ _ _ _ G). simpl.
      rewrite app_nil_r. split; [reflexivity | intros c req []].
Qed.

Lemma upload_defaults_sent_witness :
  exists req,
    calls (snd (handle sample_world
                  (upload_call (FromUrl "https://x.example/cat.png" "cat.png")
                     default_options)
                  initial))
    = [CallUpload sample_client req]
    /\ up_folder req = "" /\ up_useUniqueFileName req = true.
Proof.
  destruct (upload_defaults_sent sample_world
              (FromUrl "https://x.example/cat.png" "cat.png")
              (mkUploadOpts None None None None None None None) initial)
    as (new & Hcalls & Hreq).
  change (calls initial ++ new)%list with new in Hcalls.
  exists (uploadOptions_of (Some "https://x.example/cat.png") "cat.png" default_options).
  split; [reflexivity |].
  destruct (Hreq sample_client
              (uploadOptions_of (Some "https://x.example/cat.png") "cat.png"
                 default_options)) as (Hf & _ & Hu & _).
  { rewrite <- Hcalls. left. reflexivity. }
  split; [exact (Hf eq_refl) | exact Hu].
Defined.

(** X14.  The three upload tools build the same request: two upload calls
    with the same options, through whichever tools, that each reach the
    backend send requests that agree on everything but the payload and the
    file name. *)
Theorem upload_tools_agree (w : World) (s1 s2 : UploadSource) (o : UploadOpts)
    (st : State) (c1 c2 : Client) (req1 req2 : UploadRequest) :
  calls (snd (handle w (upload_call s1 o) st)) = (calls st ++ [CallUpload c1 req1])%list ->
  calls (snd (handle w (upload_call s2 o) st)) = (calls st ++ [CallUpload c2 req2])%list ->
  c1 = c2
  /\ up_folder req1 = up_folder req2
  /\ up_useUniqueFileName req1 = up_useUniqueFileName req2
  /\ up_isPrivateFile req1 = up_isPrivateFile req2
  /\ up_overwriteFile req1 = up_overwriteFile req2
  /\ up_tags req1 = up_tags req2
  /\ up_customCoordinates req1 = up_customCoordinates req2
  /\ up_customMetadata req1 = up_customMetadata req2.
Proof.
  assert (K : forall s c req,
            calls (snd (handle w (upload_call s o) st))
            = (calls st ++ [CallUpload c req])%list ->
            exists d n st1, getClient w st = (Ok c, st1) /\ req = uploadOptions_of d n o).
  { intros s c req H. destruct (upload_call_cases w s st) as [[r E] | (d & n & E)];
      rewrite E in H.
    - simpl in H. now destruct (app_one_neq _ _ H).
    - destruct (getClient w st) as [[c' | e] st1] eqn:G.
      + rewrite (uploadToImageKit_calls _ _ _ _ _ _ _ G) in H.
        apply app_one_inj in H. inversion H; subst. now exists d, n, st1.
      + rewrite (uploadToImageKit_no_client _ _ _ _ _ _ _ G) in H. simpl in H.
        now destruct (app_one_neq _ _ H). }
  intros H1 H2.
  destruct (K _ _ _ H1) as (d1 & n1 & st1 & G1 & ->).
  destruct (K _ _ _ H2) as (d2 & n2 & st2 & G2 & ->).
  rewrite G1 in G2. inversion G2. repeat split.
Qed.

Lemma upload_tools_agree_witness :
  up_folder (uploadOptions_of (Some "https://x.example/cat.png") "cat.png"
               (mkUploadOpts (Some "/photos/") None None None (Some ["pet"]) None None))
  = up_folder (uploadOptions_of (Some "AAAA") "a.png"
                 (mkUploadOpts (Some "/photos/") None None None (Some ["pet"]) None None)).
Proof.
  apply (upload_tools_agree sample_world
           (FromUrl "https://x.example/cat.png" "cat.png")
           (FromBase64 "data:image/png;base64,AAAA" "a.png")
           (mkUploadOpts (Some "/photos/") None None None (Some ["pet"]) None None)
           initial sample_client sample_client); reflexivity.
Defined.



Lemma after_first_split (s r : string) (c : ascii) :
  after_first s c = Some r -> s = before_first s c ++ String c r.
Proof.
  induction s as [| d s IH]; simpl; [discriminate |].
  destruct (Ascii.eqb d c) eqn:E.
  - apply Ascii.eqb_eq in E. subst d. intros H. now inversion H.
  - intros H. simpl. now rewrite <- (IH H).
Qed.

Lemma before_first_clean (s : string) (c : ascii) :
  after_first (before_first s c) c = None.
Proof.
  induction s as [| d s IH]; simpl; [reflexivity |].
  destruct (Ascii.eqb d c) eqn:E; simpl; [reflexivity | now rewrite E].
Qed.

Lemma before_first_rest (s : string) (c : ascii) :
  exists rest, s = before_first s c ++ rest
               /\ (rest = "" \/ exists r, rest = String c r).
Proof.
  destruct (after_first s c) as [r |] eqn:E.
  - exists (String c r). split; [now apply after_first_split | right; now exists r].
  - exists "". split; [| now left]. rewrite app_empty_r.
    induction s as [| d s IH]; simpl in *; [reflexivity |].
    destruct (Ascii.eqb d c); [discriminate | now rewrite <- IH].
Qed.

(** X16.  What [upload_base64_file] forwards for data that starts with
    ["data:"]: [undefined] exactly when the data holds no comma; otherwise
    the text between the first comma and the next one (or the end), so what
    follows a second comma is dropped. *)
Theorem clean_base64_between_commas (base64Data : string) :
  JS.startsWith base64Data "data:" = true ->
  (clean_base64 base64Data = None <-> after_first base64Data "," = None)
  /\ forall p, clean_base64 base64Data = Some p ->
       after_first p "," = None
       /\ exists a rest,
            base64Data = a ++ "," ++ p ++ rest
            /\ after_first a "," = None
            /\ (rest = "" \/ exists r, rest = "," ++ r).
Proof.
  intros Hp. rewrite clean_base64_char, Hp.
  destruct (after_first base64Data ",") as [r |] eqn:E; simpl.
  - split; [split; discriminate |]. intros p H. inversion H; subst p.
    split; [apply before_first_clean |].
    destruct (before_first_rest r ",") as (rest & Hr & Hrest).
    exists (before_first base64Data ","), rest.
    split; [| split; [apply before_first_clean | exact Hrest]].
    rewrite (after_first_split _ _ _ E) at 1. simpl. now rewrite <- Hr.
  - split; [split; reflexivity | discriminate].
Qed.

Lemma clean_base64_between_commas_witness :
  clean_base64 "data:text/csv,a,b,c" = Some "a"
  /\ after_first "a" "," = None.
Proof.
  destruct (clean_base64_between_commas "data:text/csv,a,b,c" eq_refl) as [_ H].
  split; [reflexivity |]. exact (proj1 (H "a" eq_refl)).
Defined.



(** X18.  The four tools that change the library pass their arguments on as
    they are (no path is trimmed or rewritten): each makes the one call named
    after it with the arguments given and, when the backend accepts it,
    confirms with a text that quotes the same arguments. *)
Theorem mutations_pass_arguments (w : World) (st st1 : State) (c : Client) (x y : string) :
  getClient w st = (Ok c, st1) ->
  (calls (snd (delete_file w x st)) = (calls st ++ [CallDeleteFile c x])%list
   /\ (ik_deleteFile w c x = Ok tt ->
       fst (delete_file w x st)
       = Ok (formatResult ("File deleted successfully. ID: " ++ x))))
  /\ (calls (snd (create_folder w x y st)) = (calls st ++ [CallCreateFolder c x y])%list
      /\ (ik_createFolder w c x y = Ok tt ->
          fst (create_folder w x y st)
          = Ok (formatResult ("Folder " ++ JS.dq ++ x ++ JS.dq ++ " created in "
                              ++ JS.dq ++ y ++ JS.dq ++ "."))))
  /\ (calls (snd (delete_folder w x st)) = (calls st ++ [CallDeleteFolder c x])%list
      /\ (ik_deleteFolder w c x = Ok tt ->
          fst (delete_folder w x st) = Ok (formatResult ("Folder deleted: " ++ x))))
  /\ (calls (snd (move_file w x y st)) = (calls st ++ [CallMoveFile c x y])%list
      /\ (ik_moveFile w c x y = Ok tt ->
          fst (move_file w x y st)
          = Ok (formatResult ("File moved from " ++ JS.dq ++ x ++ JS.dq ++ " to "
                              ++ JS.dq ++ y ++ JS.dq ++ ".")))).
Proof.
  intros G. destruct (getClient_ok _ _ _ _ G) as (_ & Hcalls & _).
  unfold delete_file, create_folder, delete_folder, move_file, bind, sdk.
  rewrite G, Hcalls.
  repeat split;
    try (intros ->; reflexivity);
    match goal with
    | |- context [match ?r with Ok _ => _ | Throw _ => _ end] => destruct r; reflexivity
    end.
Qed.

Lemma mutations_pass_arguments_witness :
  calls (snd (move_file sample_world "/old/cat.png" "/new-folder/" initial))
  = [CallMoveFile sample_client "/old/cat.png" "/new-folder/"].
Proof.
  destruct (mutations_pass_arguments sample_world initial
              (mkState (Some sample_client) 1 []) sample_client
              "/old/cat.png" "/new-folder/" eq_refl) as (_ & _ & _ & H & _).
  exact H.
Defined.
